(** * TrinoDocWorker: the job-processing pipeline

    A shallow embedding of the document worker's render / upload / result
    pipeline:

    - [appConfig]                      ([config/app.config.ts])
    - [PuppeteerService]               ([shared/services/puppeteer.service.ts])
    - [S3Service]                      ([shared/services/s3.service.ts])
    - [PdfGenerationProcessor.process] ([pdf-generation/pdf-generation.processor.ts])

    Asynchronous methods are computations in a small monad [M] that threads
    the only piece of process-wide mutable state the code touches (the
    graphics-mode flag of the chromium package), records every call that
    crosses a boundary (logger, chromium, puppeteer, S3 client, clock) as an
    [Event], and ends either with a value or with a thrown JavaScript value.
    The collaborators themselves are not modelled: a record [Env] says, for
    every call and every argument, whether the promise resolves or rejects. *)

From Stdlib Require Import ZArith String List Bool Lia.
From stdpp Require Import gmap strings list fin_maps.

Open Scope string_scope.
Open Scope list_scope.
Open Scope Z_scope.

(** ** JavaScript values *)

(** Plain data as it travels through logs, job payloads and results.
    Numbers are only passed through or compared with zero, so integers are
    enough. *)
#[warnings="-register-all"] Inductive JsVal : Type :=
| JUndefined
| JNull
| JBool (b : bool)
| JNum (n : Z)
| JStr (s : string)
| JObj (props : list (string * JsVal)).

(** A thrown value: an [Error] instance with its message and optional stack,
    or any other value, kept as what [String(err)] renders. *)
Inductive JsThrown : Type :=
| ThrownError (message : string) (stack : option string)
| ThrownOther (rendered : string).

(** [err instanceof Error ? err.message : String(err)] *)
Definition error_message (err : JsThrown) : string :=
  match err with
  | ThrownError message _ => message
  | ThrownOther rendered => rendered
  end.

(** [err instanceof Error ? err.stack : undefined] *)
Definition error_stack (err : JsThrown) : JsVal :=
  match err with
  | ThrownError _ (Some stack) => JStr stack
  | ThrownError _ None => JUndefined
  | ThrownOther _ => JUndefined
  end.

(** How a promise settles. *)
Inductive Result (A : Type) : Type :=
| Ok (a : A)
| Throw (err : JsThrown).
Arguments Ok {A} a.
Arguments Throw {A} err.

(** [Array.prototype.includes] on an array of strings. *)
Definition includes (xs : list string) (x : string) : bool :=
  existsb (String.eqb x) xs.

(** [a ?? b] where [undefined] is [None]. *)
Definition nullish {A : Type} (a : option A) (b : A) : A :=
  match a with
  | Some v => v
  | None => b
  end.
Infix "??" := nullish (at level 45, left associativity).

(** [options?.field] for an optional options object. *)
Definition opt_chain {O A : Type} (options : option O) (field : O -> option A) : option A :=
  match options with
  | Some o => field o
  | None => None
  end.
Notation "o ?. f" := (opt_chain o f) (at level 40, left associativity, f at level 9).

Definition Buffer : Type := list Byte.byte.

(** ** Job payload ([pdf-generation/dto/generate-document.job.ts]) *)

Inductive PaperFormat : Type := A4 | Letter | Legal.

Record PdfMargin : Type := {
  top : option string;
  right : option string;
  bottom : option string;
  left : option string;
}.

Record PdfOptions : Type := {
  pdf_format : option PaperFormat;
  pdf_landscape : option bool;
  pdf_printBackground : option bool;
  pdf_margin : option PdfMargin;
  pdf_tagged : option bool;
  pdf_preferCSSPageSize : option bool;
}.

Inductive ImageType : Type := Png | Jpeg | Webp.

Definition ImageType_name (t : ImageType) : string :=
  match t with
  | Png => "png"
  | Jpeg => "jpeg"
  | Webp => "webp"
  end.

Record Clip : Type := {
  clip_x : Z;
  clip_y : Z;
  clip_width : Z;
  clip_height : Z;
}.

Record ImageOptions : Type := {
  img_type : option ImageType;
  img_quality : option Z;
  img_fullPage : option bool;
  img_deviceScaleFactor : option Z;
  img_hasTouch : option bool;
  img_isLandscape : option bool;
  img_isMobile : option bool;
  img_width : option Z;
  img_height : option Z;
  img_clip : option Clip;
  img_omitBackground : option bool;
}.

Inductive DocumentType : Type := Pdf | Image.

Definition DocumentType_name (t : DocumentType) : string :=
  match t with
  | Pdf => "pdf"
  | Image => "image"
  end.

(** [metaData] is [Record<string, unknown>]: any value, [JUndefined] when the
    producer left it out. *)
Record GenerateDocumentJobData : Type := {
  userId : string;
  documentType : DocumentType;
  htmlContent : string;
  s3Key : string;
  pdfOptions : option PdfOptions;
  imageOptions : option ImageOptions;
  metaData : JsVal;
}.

(** The part of a BullMQ [Job] that [process] reads. *)
Record Job : Type := {
  job_id : option string;
  queueName : string;
  data : GenerateDocumentJobData;
}.

(** ** Requests sent to the collaborators *)

(** Argument of [page.pdf]. *)
Record PDFOptions : Type := {
  format : PaperFormat;
  landscape : bool;
  printBackground : bool;
  margin : PdfMargin;
  tagged : bool;
  preferCSSPageSize : bool;
}.

(** Argument of [page.screenshot]; an absent key is [None]. *)
Record ScreenshotOptions : Type := {
  type : option ImageType;
  omitBackground : option bool;
  quality : option Z;
  clip : option Clip;
  fullPage : option bool;
}.

Record Viewport : Type := {
  deviceScaleFactor : Z;
  hasTouch : bool;
  isLandscape : bool;
  isMobile : bool;
  width : Z;
  height : Z;
}.

(** Argument of [puppeteer.launch]. *)
Record LaunchOptions : Type := {
  args : list string;
  executablePath : string;
  headless : bool;
  defaultViewport : option Viewport;
}.

(** [PuppeteerLifeCycleEvent]: "load", "domcontentloaded", "networkidle0",
    "networkidle2". *)
Inductive LifeCycleEvent : Type := PageLoad | DomContentLoaded | NetworkIdle0 | NetworkIdle2.

(** What [page.evaluate] returns for the content-size probe. *)
Record Dimensions : Type := {
  dim_width : Z;
  dim_height : Z;
}.

(** Input of the S3 [PutObjectCommand]. *)
Record PutObjectCommand : Type := {
  Bucket : string;
  Key : string;
  Body : Buffer;
  ContentType : string;
}.

(** ** Events and the collaborators' behaviour *)

Inductive LogLevel : Type := LevelLog | LevelError.

Inductive Event : Type :=
| EvLog (context : string) (level : LogLevel) (params : list JsVal)
| EvChromiumExecutablePath
| EvLaunch (options : LaunchOptions)
| EvNewPage
| EvSetContent (html : string) (waitUntil : list LifeCycleEvent)
| EvEvaluate
| EvPdf (options : PDFOptions)
| EvScreenshot (options : ScreenshotOptions)
| EvClose
| EvS3Send (command : PutObjectCommand)
| EvDateNow.

(** One field per call that leaves the worker. Every call is made at most
    once per job, so a settled promise per call (and per argument) describes
    any behaviour of the collaborators. *)
Record Env : Type := {
  chromium_executablePath : Result string;
  chromium_args : bool -> list string;
  puppeteer_defaultArgs : list string -> bool -> list string;
  puppeteer_launch : LaunchOptions -> Result unit;
  browser_newPage : Result unit;
  page_setContent : string -> list LifeCycleEvent -> Result unit;
  page_evaluate : Result Dimensions;
  page_pdf : PDFOptions -> Result Buffer;
  page_screenshot : ScreenshotOptions -> Result Buffer;
  browser_close : Result unit;
  s3_send : PutObjectCommand -> Result unit;
  date_toISOString : string;
}.

(** ** The effect monad *)

(** Process-wide mutable state: [chromium.setGraphicsMode]. *)
Record Globals : Type := {
  graphicsMode : bool;
}.

Record Run (A : Type) : Type := MkRun {
  outcome : Result A;
  globals : Globals;
  events : list Event;
}.
Arguments MkRun {A} outcome globals events.
Arguments outcome {A} r.
Arguments globals {A} r.
Arguments events {A} r.

Definition M (A : Type) : Type := Globals -> Run A.

Definition ret {A : Type} (a : A) : M A :=
  fun g => MkRun (Ok a) g [].

Definition throw {A : Type} (err : JsThrown) : M A :=
  fun g => MkRun (Throw err) g [].

Definition bind {A B : Type} (m : M A) (k : A -> M B) : M B :=
  fun g =>
    match m g with
    | MkRun (Ok a) g1 evs1 =>
        match k a g1 with
        | MkRun result g2 evs2 => MkRun result g2 (evs1 ++ evs2)
        end
    | MkRun (Throw err) g1 evs1 => MkRun (Throw err) g1 evs1
    end.

Declare Scope js_scope.
Delimit Scope js_scope with js.
Notation "x <- m ;; k" := (bind m (fun x => k))
  (at level 100, m at next level, right associativity) : js_scope.
Notation "m ;; k" := (bind m (fun _ => k))
  (at level 100, right associativity) : js_scope.
Open Scope js_scope.

(** A call across a boundary that cannot fail. *)
Definition emit (ev : Event) : M unit :=
  fun g => MkRun (Ok tt) g [ev].

(** [await] of a call across a boundary: the call is recorded, then the
    promise settles. *)
Definition await {A : Type} (ev : Event) (settled : Result A) : M A :=
  fun g => MkRun settled g [ev].

Definition setGraphicsMode (b : bool) : M unit :=
  fun g => MkRun (Ok tt) {| graphicsMode := b |} [].

Definition getGraphicsMode : M bool :=
  fun g => MkRun (Ok (graphicsMode g)) g [].

(** [try { body } finally { finalizer }]: the finalizer always runs; when it
    throws, its error replaces whatever the body produced. *)
Definition try_finally {A : Type} (body : M A) (finalizer : M unit) : M A :=
  fun g =>
    match body g with
    | MkRun result g1 evs1 =>
        match finalizer g1 with
        | MkRun (Ok _) g2 evs2 => MkRun result g2 (evs1 ++ evs2)
        | MkRun (Throw err) g2 evs2 => MkRun (Throw err) g2 (evs1 ++ evs2)
        end
    end.

(** [try { body } catch (err) { handler }] *)
Definition try_catch {A : Type} (body : M A) (handler : JsThrown -> M A) : M A :=
  fun g =>
    match body g with
    | MkRun (Ok a) g1 evs1 => MkRun (Ok a) g1 evs1
    | MkRun (Throw err) g1 evs1 =>
        match handler err g1 with
        | MkRun result g2 evs2 => MkRun result g2 (evs1 ++ evs2)
        end
    end.

(** [logger.log(...)] and [logger.error(...)] of a NestJS [Logger]. *)
Definition logger_log (context : string) (params : list JsVal) : M unit :=
  emit (EvLog context LevelLog params).

Definition logger_error (context : string) (params : list JsVal) : M unit :=
  emit (EvLog context LevelError params).

(** ** Application configuration ([config/app.config.ts]) *)

Record AppConfig : Type := {
  redisHost : string;
  redisPort : option Z;
  redisPassword : option string;
  redisTls : bool;
  s3BucketName : string;
  awsRegion : string;
  pdfGenerationQueue : string;
  localChromiumPath : option string;
  nodeEnv : string;
}.

(** [value || undefined] on an environment variable: the empty string is
    falsy. *)
Definition or_undefined (value : option string) : option string :=
  match value with
  | Some s => if String.eqb s "" then None else Some s
  | None => None
  end.

(** [!process.env[key]] *)
Definition env_missing (env : gmap string string) (key : string) : bool :=
  match env !! key with
  | Some s => String.eqb s ""
  | None => true
  end.

Section AppConfigFactory.
(** [Number.parseInt(string, radix)]; [None] is [NaN]. *)
Variable parseInt : string -> Z -> option Z.

Definition required : list string := ["REDIS_HOST"; "S3_BUCKET_NAME"; "AWS_REGION"].

(** The [for (const key of required)] loop: the first missing key throws. *)
Fixpoint check_required (env : gmap string string) (keys : list string) : Result unit :=
  match keys with
  | [] => Ok tt
  | key :: rest =>
      if env_missing env key
      then Throw (ThrownError ("Missing required environment variable: " +:+ key) None)
      else check_required env rest
  end.

Definition appConfig (env : gmap string string) : Result AppConfig :=
  match check_required env required with
  | Throw err => Throw err
  | Ok _ =>
      Ok {| redisHost := (env !! "REDIS_HOST") ?? "localhost";
            redisPort := parseInt ((env !! "REDIS_PORT") ?? "6379") 10;
            redisPassword := or_undefined (env !! "REDIS_PASSWORD");
            redisTls := match env !! "REDIS_TLS" with
                        | Some s => String.eqb s "true"
                        | None => false
                        end;
            s3BucketName := (env !! "S3_BUCKET_NAME") ?? "trino-doc-worker-bucket";
            awsRegion := (env !! "AWS_REGION") ?? "us-east-1";
            pdfGenerationQueue := (env !! "PDF_GENERATION_QUEUE") ?? "pdf-generation";
            localChromiumPath := or_undefined (env !! "LOCAL_CHROMIUM_PATH");
            nodeEnv := (env !! "NODE_ENV") ?? "production" |}
  end.
End AppConfigFactory.

(** ** PuppeteerService ([shared/services/puppeteer.service.ts]) *)

Definition Clip_toJs (c : Clip) : JsVal :=
  JObj [("x", JNum (clip_x c)); ("y", JNum (clip_y c));
        ("width", JNum (clip_width c)); ("height", JNum (clip_height c))].

(** [screenshotOptions.quality = v] and its siblings: assignment to one key
    of the request object. *)
Definition set_quality (v : Z) (o : ScreenshotOptions) : ScreenshotOptions :=
  {| type := type o; omitBackground := omitBackground o;
     quality := Some v; clip := clip o; fullPage := fullPage o |}.

Definition set_clip (v : Clip) (o : ScreenshotOptions) : ScreenshotOptions :=
  {| type := type o; omitBackground := omitBackground o;
     quality := quality o; clip := Some v; fullPage := fullPage o |}.

Definition set_fullPage (v : bool) (o : ScreenshotOptions) : ScreenshotOptions :=
  {| type := type o; omitBackground := omitBackground o;
     quality := quality o; clip := clip o; fullPage := Some v |}.

Module PuppeteerService.
Section Service.
Variable env : Env.
(** The injected [ConfigService]. *)
Variable config : AppConfig.

Definition name : string := "PuppeteerService".

Definition getExecutablePath : M string :=
  let fallback : M string :=
    (* @sparticuz/chromium provides the binary on Linux (ECS/Docker) *)
    executablePath <- await EvChromiumExecutablePath (chromium_executablePath env) ;;
    logger_log name [JObj [("msg", JStr "Using @sparticuz/chromium Chromium");
                           ("path", JStr executablePath)]] ;;
    ret executablePath in
  match localChromiumPath config with
  | Some localPath =>
      (* [if (localPath)]: the empty string is falsy *)
      if negb (String.eqb localPath "") then
        logger_log name [JObj [("msg", JStr "Using local Chromium");
                               ("path", JStr localPath)]] ;;
        ret localPath
      else fallback
  | None => fallback
  end.

Definition generatePdf (html : string) (options : option PdfOptions) : M Buffer :=
  executablePath <- getExecutablePath ;;
  setGraphicsMode false ;;
  chromiumArgs <- (g <- getGraphicsMode ;; ret (chromium_args env g)) ;;
  let launchOptions :=
    {| args := puppeteer_defaultArgs env chromiumArgs true;
       executablePath := executablePath;
       headless := true;
       defaultViewport := None |} in
  await (EvLaunch launchOptions) (puppeteer_launch env launchOptions) ;;
  try_finally
    (await EvNewPage (browser_newPage env) ;;
     await (EvSetContent html [NetworkIdle0]) (page_setContent env html [NetworkIdle0]) ;;
     let pdfOptions :=
       {| format := options ?. pdf_format ?? A4;
          landscape := options ?. pdf_landscape ?? false;
          printBackground := options ?. pdf_printBackground ?? true;
          margin := options ?. pdf_margin ??
                      {| top := Some "10mm";
                         right := Some "10mm";
                         bottom := Some "10mm";
                         left := Some "10mm" |};
          tagged := options ?. pdf_tagged ?? true;
          preferCSSPageSize := options ?. pdf_preferCSSPageSize ?? true |} in
     pdf <- await (EvPdf pdfOptions) (page_pdf env pdfOptions) ;;
     (* [Buffer.from(pdf)]: the same bytes *)
     ret pdf)
    (await EvClose (browser_close env)).

Definition generateImage (html : string) (options : option ImageOptions) : M Buffer :=
  executablePath <- getExecutablePath ;;
  setGraphicsMode false ;;
  chromiumArgs <- (g <- getGraphicsMode ;; ret (chromium_args env g)) ;;
  let launchOptions :=
    {| args := puppeteer_defaultArgs env chromiumArgs true;
       executablePath := executablePath;
       headless := true;
       defaultViewport :=
         Some {| deviceScaleFactor := options ?. img_deviceScaleFactor ?? 1;
                 hasTouch := options ?. img_hasTouch ?? false;
                 isLandscape := options ?. img_isLandscape ?? false;
                 isMobile := options ?. img_isMobile ?? true;
                 width := options ?. img_width ?? 320;
                 height := options ?. img_height ?? 1080 |} |} in
  await (EvLaunch launchOptions) (puppeteer_launch env launchOptions) ;;
  try_finally
    (await EvNewPage (browser_newPage env) ;;
     await (EvSetContent html [PageLoad; NetworkIdle2])
           (page_setContent env html [PageLoad; NetworkIdle2]) ;;
     contentDimensions <- await EvEvaluate (page_evaluate env) ;;
     let screenshotOptions :=
       {| type := Some (options ?. img_type ?? Png);
          omitBackground := Some (options ?. img_omitBackground ?? false);
          quality := None;
          clip := None;
          fullPage := None |} in
     (* quality only applies to the lossy formats *)
     let screenshotOptions :=
       if includes ["jpeg"; "webp"]
                   (option_map ImageType_name (type screenshotOptions) ?? "")
       then set_quality (options ?. img_quality ?? 80) screenshotOptions
       else screenshotOptions in
     (* clip or fullPage, mutually exclusive *)
     screenshotOptions <-
       match options ?. img_clip with
       | Some customClip =>
           (* custom clip supplied by the caller *)
           let screenshotOptions := set_clip customClip screenshotOptions in
           logger_log name [JStr "✂️ Using custom clip:"; Clip_toJs customClip] ;;
           ret screenshotOptions
       | None =>
           if (0 <? dim_width contentDimensions) && (0 <? dim_height contentDimensions)
           then
             (* auto-fit: the detected dimensions *)
             let screenshotOptions :=
               set_clip {| clip_x := 0;
                           clip_y := 0;
                           clip_width := dim_width contentDimensions;
                           clip_height := dim_height contentDimensions |}
                        screenshotOptions in
             logger_log name [JStr "✂️ Auto-fit clip applied:";
                              match clip screenshotOptions with
                              | Some c => Clip_toJs c
                              | None => JUndefined
                              end] ;;
             ret screenshotOptions
           else
             (* fallback: the whole page *)
             let screenshotOptions :=
               set_fullPage (options ?. img_fullPage ?? true) screenshotOptions in
             logger_log name [JStr "📄 Using fullPage mode"] ;;
             ret screenshotOptions
       end ;;
     screenshot <- await (EvScreenshot screenshotOptions)
                         (page_screenshot env screenshotOptions) ;;
     (* [Buffer.from(screenshot)]: the same bytes *)
     ret screenshot)
    (await EvClose (browser_close env)).
End Service.
End PuppeteerService.

(** ** S3Service ([shared/services/s3.service.ts]) *)

Module S3Service.
(** The fields the constructor reads from the configuration. *)
Record t : Type := {
  bucket : string;
  region : string;
}.

Definition new (config : AppConfig) : t :=
  {| bucket := s3BucketName config;
     region := awsRegion config |}.

Definition name : string := "S3Service".

Section Service.
Variable env : Env.
Variable this : t.

Definition upload (key : string) (buffer : Buffer) (documentType : DocumentType) : M string :=
  let contentType :=
    match documentType with
    | Pdf => "application/pdf"
    | Image => "image/png"
    end in
  logger_log name [JObj [("msg", JStr "Uploading to S3");
                         ("bucket", JStr (bucket this));
                         ("key", JStr key);
                         ("bytes", JNum (Z.of_nat (length buffer)));
                         ("contentType", JStr contentType)]] ;;
  let command :=
    {| Bucket := bucket this;
       Key := key;
       Body := buffer;
       ContentType := contentType |} in
  await (EvS3Send command) (s3_send env command) ;;
  let url := "https://" +:+ bucket this +:+ ".s3.amazonaws.com/" +:+ key in
  logger_log name [JObj [("msg", JStr "S3 upload successful");
                         ("bucket", JStr (bucket this));
                         ("key", JStr key);
                         ("url", JStr url)]] ;;
  ret url.
End Service.
End S3Service.

(** ** PdfGenerationProcessor ([pdf-generation/pdf-generation.processor.ts]) *)

(** [job.id] is [string | undefined]. *)
Definition jobId_toJs (id : option string) : JsVal :=
  match id with
  | Some s => JStr s
  | None => JUndefined
  end.

(** [{ ...literal, ...extra }]: the keys of [extra] are added to those of the
    literal and override them. *)
Definition obj_spread (literal extra : gmap string JsVal) : gmap string JsVal :=
  extra ∪ literal.

(** [cond && { ... }] as the operand of a spread: spreading [false] adds no
    key. *)
Definition spread_if (cond : bool) (props : gmap string JsVal) : gmap string JsVal :=
  if cond then props else ∅.

(** [v !== undefined] *)
Definition is_defined (v : JsVal) : bool :=
  match v with
  | JUndefined => false
  | _ => true
  end.

Module PdfGenerationProcessor.
Section Processor.
Variable env : Env.
Variable config : AppConfig.
Variable s3Service : S3Service.t.

Definition name : string := "PdfGenerationProcessor".

(** The result is the object literal of the source: every key written in
    it is present, and a later key overrides an earlier one. *)
Definition process (job : Job) : M (gmap string JsVal) :=
  logger_log name [JObj [("msg", JStr "Job started");
                         ("jobId", jobId_toJs (job_id job));
                         ("queue", JStr (queueName job));
                         ("documentType", JStr (DocumentType_name (documentType (data job))));
                         ("s3Key", JStr (s3Key (data job)));
                         ("userId", JStr (userId (data job)))]] ;;
  try_catch
    ((* step 1: render the HTML to a binary buffer *)
     buffer <-
       match documentType (data job) with
       | Pdf => PuppeteerService.generatePdf env config
                  (htmlContent (data job)) (pdfOptions (data job))
       | Image => PuppeteerService.generateImage env config
                  (htmlContent (data job)) (imageOptions (data job))
       end ;;
     logger_log name [JObj [("msg", JStr "Document generated");
                            ("jobId", jobId_toJs (job_id job));
                            ("bytes", JNum (Z.of_nat (length buffer)))]] ;;
     (* step 2: upload the buffer and get the public URL *)
     url <- S3Service.upload env s3Service
              (s3Key (data job)) buffer (documentType (data job)) ;;
     logger_log name [JObj [("msg", JStr "Uploaded to S3");
                            ("jobId", jobId_toJs (job_id job));
                            ("s3Key", JStr (s3Key (data job)));
                            ("url", JStr url)]] ;;
     (* step 3: build the job result *)
     completedAt <- (emit EvDateNow ;; ret (date_toISOString env)) ;;
     let result : gmap string JsVal :=
       obj_spread {[ "url" := JStr url;
                     "userId" := JStr (userId (data job));
                     "completedAt" := JStr completedAt ]}
                  (spread_if (is_defined (metaData (data job)))
                             {[ "metaData" := metaData (data job) ]}) in
     logger_log name [JObj [("msg", JStr "Job completed");
                            ("jobId", jobId_toJs (job_id job));
                            ("url", JStr url)]] ;;
     ret result)
    (fun err =>
       logger_error name [JObj [("msg", JStr "Job failed");
                                ("jobId", jobId_toJs (job_id job));
                                ("queue", JStr (queueName job));
                                ("error", JStr (error_message err));
                                ("stack", error_stack err)]] ;;
       (* rethrow so that BullMQ handles retry / backoff / DLQ *)
       throw err).
End Processor.
End PdfGenerationProcessor.

(** ** Observing a run *)

Definition is_chromium_lookup (ev : Event) : bool :=
  match ev with EvChromiumExecutablePath => true | _ => false end.

Definition is_launch (ev : Event) : bool :=
  match ev with EvLaunch _ => true | _ => false end.

Definition is_setContent (ev : Event) : bool :=
  match ev with EvSetContent _ _ => true | _ => false end.

Definition is_close (ev : Event) : bool :=
  match ev with EvClose => true | _ => false end.

Definition is_dateNow (ev : Event) : bool :=
  match ev with EvDateNow => true | _ => false end.

(** Anything [S3Service.upload] does: its log lines and its [send]. *)
Definition is_upload (ev : Event) : bool :=
  match ev with
  | EvS3Send _ => true
  | EvLog context _ _ => String.eqb context S3Service.name
  | _ => false
  end.

Definition count_events (p : Event -> bool) (evs : list Event) : nat :=
  length (List.filter p evs).

(** The commands sent to the blob store, in order. *)
Fixpoint s3_commands (evs : list Event) : list PutObjectCommand :=
  match evs with
  | [] => []
  | EvS3Send command :: rest => command :: s3_commands rest
  | _ :: rest => s3_commands rest
  end.

(** The capture requests sent to the page, in order. *)
Fixpoint screenshot_requests (evs : list Event) : list ScreenshotOptions :=
  match evs with
  | [] => []
  | EvScreenshot options :: rest => options :: screenshot_requests rest
  | _ :: rest => screenshot_requests rest
  end.

(** A field of a request resolved from an optional caller value: the
    caller's value when supplied, the default otherwise. *)
Definition resolved {A : Type} (supplied : option A) (default actual : A) : Prop :=
  match supplied with
  | Some v => actual = v
  | None => actual = default
  end.

Definition with_localChromiumPath (path : option string) (c : AppConfig) : AppConfig :=
  {| redisHost := redisHost c;
     redisPort := redisPort c;
     redisPassword := redisPassword c;
     redisTls := redisTls c;
     s3BucketName := s3BucketName c;
     awsRegion := awsRegion c;
     pdfGenerationQueue := pdfGenerationQueue c;
     localChromiumPath := path;
     nodeEnv := nodeEnv c |}.

Definition with_imageOptions (o : option ImageOptions) (d : GenerateDocumentJobData)
  : GenerateDocumentJobData :=
  {| userId := userId d;
     documentType := documentType d;
     htmlContent := htmlContent d;
     s3Key := s3Key d;
     pdfOptions := pdfOptions d;
     imageOptions := o;
     metaData := metaData d |}.

Definition with_pdfOptions (o : option PdfOptions) (d : GenerateDocumentJobData)
  : GenerateDocumentJobData :=
  {| userId := userId d;
     documentType := documentType d;
     htmlContent := htmlContent d;
     s3Key := s3Key d;
     pdfOptions := o;
     imageOptions := imageOptions d;
     metaData := metaData d |}.

Definition with_data (d : GenerateDocumentJobData) (job : Job) : Job :=
  {| job_id := job_id job; queueName := queueName job; data := d |}.

(** The render step of [process]: the dispatch on the document type. *)
Definition render_step (env : Env) (config : AppConfig) (job : Job) : M Buffer :=
  match documentType (data job) with
  | Pdf => PuppeteerService.generatePdf env config
             (htmlContent (data job)) (pdfOptions (data job))
  | Image => PuppeteerService.generateImage env config
             (htmlContent (data job)) (imageOptions (data job))
  end.

(** The upload step of [process] for a rendered buffer. *)
Definition upload_step (env : Env) (s3Service : S3Service.t) (job : Job) (buffer : Buffer)
  : M string :=
  S3Service.upload env s3Service (s3Key (data job)) buffer (documentType (data job)).

(** The structured failure record that [process] logs in its [catch]. *)
Definition failure_log (job : Job) (err : JsThrown) : Event :=
  EvLog PdfGenerationProcessor.name LevelError
    [JObj [("msg", JStr "Job failed");
           ("jobId", jobId_toJs (job_id job));
           ("queue", JStr (queueName job));
           ("error", JStr (error_message err));
           ("stack", error_stack err)]].

(** [process], observed: its log records and the result object it builds. *)
Definition processor_log (level : LogLevel) (fields : list (string * JsVal)) : Event :=
  EvLog PdfGenerationProcessor.name level [JObj fields].

Definition started_log (job : Job) : Event :=
  processor_log LevelLog
    [("msg", JStr "Job started");
     ("jobId", jobId_toJs (job_id job));
     ("queue", JStr (queueName job));
     ("documentType", JStr (DocumentType_name (documentType (data job))));
     ("s3Key", JStr (s3Key (data job)));
     ("userId", JStr (userId (data job)))].

Definition generated_log (job : Job) (buffer : Buffer) : Event :=
  processor_log LevelLog
    [("msg", JStr "Document generated");
     ("jobId", jobId_toJs (job_id job));
     ("bytes", JNum (Z.of_nat (length buffer)))].

Definition uploaded_log (job : Job) (url : string) : Event :=
  processor_log LevelLog
    [("msg", JStr "Uploaded to S3");
     ("jobId", jobId_toJs (job_id job));
     ("s3Key", JStr (s3Key (data job)));
     ("url", JStr url)].

Definition completed_log (job : Job) (url : string) : Event :=
  processor_log LevelLog
    [("msg", JStr "Job completed");
     ("jobId", jobId_toJs (job_id job));
     ("url", JStr url)].

Definition job_result (env : Env) (job : Job) (url : string) : gmap string JsVal :=
  obj_spread {[ "url" := JStr url;
                "userId" := JStr (userId (data job));
                "completedAt" := JStr (date_toISOString env) ]}
             (spread_if (is_defined (metaData (data job)))
                        {[ "metaData" := metaData (data job) ]}).

(** The content type [upload] derives from the document type. *)
Definition content_type_of (documentType : DocumentType) : string :=
  match documentType with
  | Pdf => "application/pdf"
  | Image => "image/png"
  end.

(** What a render call throws when its export or capture step threw [err]:
    the [finally] block closes the browser, and an error of the close
    replaces [err]. *)
Definition propagated_after_close {A : Type} (env : Env) (err : JsThrown) : Result A :=
  match browser_close env with
  | Ok _ => Throw err
  | Throw closeErr => Throw closeErr
  end.

Definition ten_mm : PdfMargin :=
  {| top := Some "10mm"; right := Some "10mm"; bottom := Some "10mm"; left := Some "10mm" |}.

(** ** Sample collaborators and inputs *)

Definition pdf_bytes : Buffer := [Byte.x25; Byte.x50; Byte.x44; Byte.x46].
Definition png_bytes : Buffer := [Byte.x89; Byte.x50; Byte.x4e; Byte.x47].

(** Every promise resolves; the probe reports a page of 800 by 600. *)
Definition env_ok : Env :=
  {| chromium_executablePath := Ok "/tmp/chromium-bin";
     chromium_args := fun g => if g then ["--in-process-gpu"] else ["--disable-webgl"];
     puppeteer_defaultArgs := fun a h => if h then "--headless" :: a else a;
     puppeteer_launch := fun _ => Ok tt;
     browser_newPage := Ok tt;
     page_setContent := fun _ _ => Ok tt;
     page_evaluate := Ok {| dim_width := 800; dim_height := 600 |};
     page_pdf := fun _ => Ok pdf_bytes;
     page_screenshot := fun _ => Ok png_bytes;
     browser_close := Ok tt;
     s3_send := fun _ => Ok tt;
     date_toISOString := "2026-01-01T00:00:00.000Z" |}.

(** [env_ok] with other outcomes for the export, the close and the upload. *)
Definition env_with (export : Result Buffer) (close : Result unit) (send : Result unit) : Env :=
  {| chromium_executablePath := chromium_executablePath env_ok;
     chromium_args := chromium_args env_ok;
     puppeteer_defaultArgs := puppeteer_defaultArgs env_ok;
     puppeteer_launch := puppeteer_launch env_ok;
     browser_newPage := browser_newPage env_ok;
     page_setContent := page_setContent env_ok;
     page_evaluate := page_evaluate env_ok;
     page_pdf := fun _ => export;
     page_screenshot := fun _ => export;
     browser_close := close;
     s3_send := fun _ => send;
     date_toISOString := date_toISOString env_ok |}.

(** [env_ok] with another answer of the content-size probe. *)
Definition env_probing (d : Dimensions) : Env :=
  {| chromium_executablePath := chromium_executablePath env_ok;
     chromium_args := chromium_args env_ok;
     puppeteer_defaultArgs := puppeteer_defaultArgs env_ok;
     puppeteer_launch := puppeteer_launch env_ok;
     browser_newPage := browser_newPage env_ok;
     page_setContent := page_setContent env_ok;
     page_evaluate := Ok d;
     page_pdf := page_pdf env_ok;
     page_screenshot := page_screenshot env_ok;
     browser_close := browser_close env_ok;
     s3_send := s3_send env_ok;
     date_toISOString := date_toISOString env_ok |}.

Definition render_failed : JsThrown := ThrownError "render failed" None.
Definition close_failed : JsThrown := ThrownError "close failed" None.
Definition access_denied : JsThrown := ThrownError "AccessDenied" None.

(** The export throws, the browser closes. *)
Definition env_export_fails : Env := env_with (Throw render_failed) (Ok tt) (Ok tt).

(** The export throws, and so does the close. *)
Definition env_close_fails : Env := env_with (Throw render_failed) (Throw close_failed) (Ok tt).

(** Rendering works, the blob store refuses the upload. *)
Definition env_upload_fails : Env := env_with (Ok pdf_bytes) (Ok tt) (Throw access_denied).

Definition config_of (path : option string) : AppConfig :=
  {| redisHost := "localhost";
     redisPort := Some 6379;
     redisPassword := None;
     redisTls := false;
     s3BucketName := "test-bucket";
     awsRegion := "us-east-1";
     pdfGenerationQueue := "pdf-generation";
     localChromiumPath := path;
     nodeEnv := "test" |}.

Definition s3_test : S3Service.t := S3Service.new (config_of None).

Definition g0 : Globals := {| graphicsMode := true |}.

(** Image options with only these four fields possibly supplied. *)
Definition image_options (t : option ImageType) (q : option Z) (c : option Clip)
  (fp : option bool) : ImageOptions :=
  {| img_type := t; img_quality := q; img_fullPage := fp;
     img_deviceScaleFactor := None; img_hasTouch := None; img_isLandscape := None;
     img_isMobile := None; img_width := None; img_height := None;
     img_clip := c; img_omitBackground := None |}.

Definition jpeg_only : ImageOptions := image_options (Some Jpeg) None None None.

Definition custom_clip : Clip :=
  {| clip_x := 10; clip_y := 20; clip_width := 300; clip_height := 150 |}.

Definition margin_top_only : PdfOptions :=
  {| pdf_format := None; pdf_landscape := None; pdf_printBackground := None;
     pdf_margin := Some {| top := Some "5mm"; right := None; bottom := None; left := None |};
     pdf_tagged := None; pdf_preferCSSPageSize := None |}.

Definition invoice_meta : JsVal := JObj [("invoiceId", JStr "INV-1")].

Definition job_pdf : Job :=
  {| job_id := Some "test-job-id-123";
     queueName := "pdf-generation";
     data := {| userId := "user-abc";
                documentType := Pdf;
                htmlContent := "<html><body>Hi</body></html>";
                s3Key := "docs/user-abc/file.pdf";
                pdfOptions := None;
                imageOptions := None;
                metaData := invoice_meta |} |}.

Definition job_image : Job :=
  {| job_id := Some "test-job-id-456";
     queueName := "pdf-generation";
     data := {| userId := "user-abc";
                documentType := Image;
                htmlContent := "<html><body>Hi</body></html>";
                s3Key := "imgs/user-abc/img.jpg";
                pdfOptions := None;
                imageOptions := Some jpeg_only;
                metaData := JUndefined |} |}.

(** The requests the sample runs send. *)
Definition launch_image_default : LaunchOptions :=
  {| args := ["--headless"; "--disable-webgl"];
     executablePath := "/tmp/chromium-bin";
     headless := true;
     defaultViewport :=
       Some {| deviceScaleFactor := 1; hasTouch := false; isLandscape := false;
               isMobile := true; width := 320; height := 1080 |} |}.

Definition autofit_800_600 : Clip :=
  {| clip_x := 0; clip_y := 0; clip_width := 800; clip_height := 600 |}.

Definition screenshot_png_autofit : ScreenshotOptions :=
  {| type := Some Png; omitBackground := Some false; quality := None;
     clip := Some autofit_800_600; fullPage := None |}.

Definition screenshot_jpeg_autofit : ScreenshotOptions :=
  {| type := Some Jpeg; omitBackground := Some false; quality := Some 80;
     clip := Some autofit_800_600; fullPage := None |}.

(** The sample runs in which the export or capture step throws. *)
Definition run_image_export_fails : Run Buffer :=
  PuppeteerService.generateImage env_export_fails (config_of None) "<html></html>" None g0.

Definition run_pdf_close_fails : Run Buffer :=
  PuppeteerService.generatePdf env_close_fails (config_of None) "<html></html>" None g0.

Definition pdf_margin_top_only : PDFOptions :=
  {| format := A4; landscape := false; printBackground := true;
     margin := {| top := Some "5mm"; right := None; bottom := None; left := None |};
     tagged := true; preferCSSPageSize := true |}.

(** ** AppModule: the Redis connection handed to BullMQ ([app.module.ts]) *)

Module AppModule.
(** The [connection] object; an absent key is [None], and a [port] of [NaN]
    is [None] as in [AppConfig]. *)
Record ConnectionOptions : Type := {
  host : string;
  port : option Z;
  password : option string;
  tls : option JsVal;
}.

Record BullRootOptions : Type := {
  connection : ConnectionOptions;
}.

(** [config.getOrThrow] throws on an undefined value only; [redisHost] and
    [redisPort] of a loaded configuration are always defined. *)
Definition useFactory (config : AppConfig) : BullRootOptions :=
  {| connection :=
       {| host := redisHost config;
          port := redisPort config;
          (* [...(config.get("redisPassword") && { password: ... })] *)
          password := match redisPassword config with
                      | Some p => if String.eqb p "" then None else Some p
                      | None => None
                      end;
          (* [...(config.get("redisTls") && { tls: {} })] *)
          tls := if redisTls config then Some (JObj []) else None |} |}.
End AppModule.

(** ** PdfGenerationModule: the queue registration
    ([pdf-generation/pdf-generation.module.ts]) *)

Module PdfGenerationModule.
Record Backoff : Type := {
  backoff_type : string;
  delay : Z;
}.

Record DefaultJobOptions : Type := {
  attempts : Z;
  backoff : Backoff;
  removeOnComplete : Z;
  removeOnFail : Z;
}.

Record QueueOptions : Type := {
  name : string;
  defaultJobOptions : DefaultJobOptions;
}.

(** [config.get(key, defaultValue)]: the default stands in for an undefined
    value only. *)
Definition config_get_or (value : option string) (defaultValue : string) : string :=
  match value with
  | Some v => v
  | None => defaultValue
  end.

Definition useFactory (config : AppConfig) : QueueOptions :=
  {| name := config_get_or (Some (pdfGenerationQueue config)) "pdf-generation";
     defaultJobOptions :=
       {| attempts := 3;
          backoff := {| backoff_type := "exponential"; delay := 5000 |};
          removeOnComplete := 100;
          removeOnFail := 50 |} |}.

(** The queue the processor is bound to: [@Processor("pdf-generation")]. *)
Definition processor_queue : string := "pdf-generation".
End PdfGenerationModule.

(** ** More observations *)

(** The variables [appConfig] reads. *)
Definition config_variables : list string :=
  ["REDIS_HOST"; "REDIS_PORT"; "REDIS_PASSWORD"; "REDIS_TLS"; "S3_BUCKET_NAME";
   "AWS_REGION"; "PDF_GENERATION_QUEUE"; "LOCAL_CHROMIUM_PATH"; "NODE_ENV"].

Definition missing_variable (key : string) : JsThrown :=
  ThrownError ("Missing required environment variable: " +:+ key) None.

(** Any call on the page of the browser. *)
Definition is_page_call (ev : Event) : bool :=
  match ev with
  | EvNewPage | EvSetContent _ _ | EvEvaluate | EvPdf _ | EvScreenshot _ => true
  | _ => false
  end.

(** The probe, the export and the capture: what runs once the content is
    loaded. *)
Definition is_after_load (ev : Event) : bool :=
  match ev with
  | EvEvaluate | EvPdf _ | EvScreenshot _ => true
  | _ => false
  end.

(** Any call on the browser or its page, launch included. *)
Definition is_browser_call (ev : Event) : bool :=
  match ev with
  | EvLaunch _ | EvClose => true
  | _ => is_page_call ev
  end.

(** The calls only [generateImage] makes, and the one only [generatePdf]
    makes. *)
Definition is_image_call (ev : Event) : bool :=
  match ev with
  | EvEvaluate | EvScreenshot _ => true
  | _ => false
  end.

Definition is_pdf_call (ev : Event) : bool :=
  match ev with
  | EvPdf _ => true
  | _ => false
  end.

Definition is_error_log (ev : Event) : bool :=
  match ev with
  | EvLog _ LevelError _ => true
  | _ => false
  end.

(** The export requests, the launches and the content loads, in order. *)
Fixpoint pdf_requests (evs : list Event) : list PDFOptions :=
  match evs with
  | [] => []
  | EvPdf options :: rest => options :: pdf_requests rest
  | _ :: rest => pdf_requests rest
  end.

Fixpoint launches (evs : list Event) : list LaunchOptions :=
  match evs with
  | [] => []
  | EvLaunch options :: rest => options :: launches rest
  | _ :: rest => launches rest
  end.

Fixpoint content_loads (evs : list Event) : list (string * list LifeCycleEvent) :=
  match evs with
  | [] => []
  | EvSetContent html waitUntil :: rest => (html, waitUntil) :: content_loads rest
  | _ :: rest => content_loads rest
  end.

(** The command [upload] sends and the URL it returns. *)
Definition put_command (this : S3Service.t) (key : string) (buffer : Buffer)
  (documentType : DocumentType) : PutObjectCommand :=
  {| Bucket := S3Service.bucket this;
     Key := key;
     Body := buffer;
     ContentType := content_type_of documentType |}.

Definition object_url (this : S3Service.t) (key : string) : string :=
  "https://" +:+ S3Service.bucket this +:+ ".s3.amazonaws.com/" +:+ key.

(** The two records [upload] logs. *)
Definition uploading_log (this : S3Service.t) (key : string) (buffer : Buffer)
  (documentType : DocumentType) : Event :=
  EvLog S3Service.name LevelLog
    [JObj [("msg", JStr "Uploading to S3");
           ("bucket", JStr (S3Service.bucket this));
           ("key", JStr key);
           ("bytes", JNum (Z.of_nat (length buffer)));
           ("contentType", JStr (content_type_of documentType))]].

Definition upload_successful_log (this : S3Service.t) (key : string) : Event :=
  EvLog S3Service.name LevelLog
    [JObj [("msg", JStr "S3 upload successful");
           ("bucket", JStr (S3Service.bucket this));
           ("key", JStr key);
           ("url", JStr (object_url this key))]].

(** ** More sample collaborators *)

(** [env_ok] with other outcomes for the steps up to the probe. *)
Definition env_steps (lookup : Result string) (launch newPage setContent : Result unit)
  (probe : Result Dimensions) : Env :=
  {| chromium_executablePath := lookup;
     chromium_args := chromium_args env_ok;
     puppeteer_defaultArgs := puppeteer_defaultArgs env_ok;
     puppeteer_launch := fun _ => launch;
     browser_newPage := newPage;
     page_setContent := fun _ _ => setContent;
     page_evaluate := probe;
     page_pdf := page_pdf env_ok;
     page_screenshot := page_screenshot env_ok;
     browser_close := browser_close env_ok;
     s3_send := s3_send env_ok;
     date_toISOString := date_toISOString env_ok |}.

Definition binary_missing : JsThrown := ThrownError "chromium binary not found" None.
Definition launch_failed : JsThrown := ThrownError "Failed to launch the browser process" None.
Definition navigation_timeout : JsThrown := ThrownError "Navigation timeout" None.
Definition probe_failed : JsThrown := ThrownError "Execution context was destroyed" None.

Definition env_resolution_fails : Env :=
  env_steps (Throw binary_missing) (Ok tt) (Ok tt) (Ok tt) (page_evaluate env_ok).

Definition env_launch_fails : Env :=
  env_steps (chromium_executablePath env_ok) (Throw launch_failed) (Ok tt) (Ok tt)
            (page_evaluate env_ok).

Definition env_load_fails : Env :=
  env_steps (chromium_executablePath env_ok) (Ok tt) (Ok tt) (Throw navigation_timeout)
            (page_evaluate env_ok).

Definition env_probe_fails : Env :=
  env_steps (chromium_executablePath env_ok) (Ok tt) (Ok tt) (Ok tt) (Throw probe_failed).

Definition launch_pdf_default : LaunchOptions :=
  {| args := ["--headless"; "--disable-webgl"];
     executablePath := "/tmp/chromium-bin";
     headless := true;
     defaultViewport := None |}.

Definition pdf_request_default : PDFOptions :=
  {| format := A4; landscape := false; printBackground := true; margin := ten_mm;
     tagged := true; preferCSSPageSize := true |}.

(** A process environment with the required variables and a parser for the
    two ports used in the samples. *)
Definition penv_required : gmap string string :=
  {[ "REDIS_HOST" := "localhost"; "S3_BUCKET_NAME" := "test-bucket";
     "AWS_REGION" := "us-east-1" ]}.

Definition parseInt_sample (s : string) (radix : Z) : option Z :=
  if String.eqb s "6379" then Some 6379
  else if String.eqb s "6380" then Some 6380
  else None.

(** What [appConfig] loads from [penv_required]. *)
Definition config_loaded : AppConfig :=
  {| redisHost := "localhost";
     redisPort := Some 6379;
     redisPassword := None;
     redisTls := false;
     s3BucketName := "test-bucket";
     awsRegion := "us-east-1";
     pdfGenerationQueue := "pdf-generation";
     localChromiumPath := None;
     nodeEnv := "production" |}.

(** ** The environment helper of the configuration tests ([withEnv]) *)

Module ConfigSpec.
Definition REQUIRED_ENV : gmap string string :=
  {[ "REDIS_HOST" := "localhost";
     "S3_BUCKET_NAME" := "test-bucket";
     "AWS_REGION" := "us-east-1" ]}.

(** [Object.keys] and [Object.entries]; the loops over them below set or
    delete one variable per key, so the order of the keys does not matter. *)
Definition Object_entries {A : Type} (o : gmap string A) : list (string * A) :=
  map_to_list o.

Definition Object_keys {A : Type} (o : gmap string A) : list string :=
  (map_to_list o).*1.

(** The first loop: [all] and [toDelete] from the entries of [extra]. *)
Definition overrides (extra : list (string * option string))
  : gmap string string * list string :=
  foldl (fun acc entry =>
           match entry.2 with
           | None => (delete entry.1 acc.1, acc.2 ++ [entry.1])
           | Some v => (<[entry.1 := v]> acc.1, acc.2)
           end)
        (REQUIRED_ENV, []) extra.

(** [saved[key] = Deno.env.get(key)] for every tracked key. *)
Definition save (keysToTrack : list string) (denv : gmap string string)
  : gmap string (option string) :=
  foldl (fun saved key => <[key := denv !! key]> saved) ∅ keysToTrack.

(** The [finally] block. *)
Definition restore (saved : gmap string (option string)) (denv : gmap string string)
  : gmap string string :=
  foldl (fun denv entry =>
           match entry.2 with
           | None => delete entry.1 denv
           | Some v => <[entry.1 := v]> denv
           end)
        denv (Object_entries saved).

(** The environment [fn] runs in. *)
Definition prepare (extra : list (string * option string)) (denv : gmap string string)
  : gmap string string :=
  let all := (overrides extra).1 in
  let toDelete := (overrides extra).2 in
  let denv := foldl (fun denv entry => <[entry.1 := entry.2]> denv) denv (Object_entries all) in
  foldl (fun denv k => delete k denv) denv toDelete.

(** [fn] may read and change the environment, and may throw; the state of
    [Deno.env] is passed in and out. *)
Definition withEnv (extra : list (string * option string))
  (fn : gmap string string -> Result unit * gmap string string)
  (denv : gmap string string) : Result unit * gmap string string :=
  let all := (overrides extra).1 in
  let toDelete := (overrides extra).2 in
  let keysToTrack := remove_dups (Object_keys all ++ toDelete) in
  let saved := save keysToTrack denv in
  let ran := fn (prepare extra denv) in
  (ran.1, restore saved ran.2).
End ConfigSpec.

(** A test body that loads the configuration and leaves the environment
    alone, an [extra] and an outer environment for it. *)
Definition fn_loads_config (e : gmap string string) : Result unit * gmap string string :=
  (match appConfig parseInt_sample e with
   | Ok _ => Ok tt
   | Throw err => Throw err
   end, e).

Definition extra_sample : list (string * option string) :=
  [("REDIS_HOST", None); ("REDIS_TLS", Some "true")].

Definition denv_sample : gmap string string :=
  {[ "HOME" := "/root"; "REDIS_HOST" := "redis.internal" ]}.

(** * Properties *)

(** ** Running the model in proofs *)

Ltac unfold_monad :=
  unfold logger_log, logger_error, try_finally, try_catch, bind, await, emit, ret, throw,
    setGraphicsMode, getGraphicsMode in *.

Ltac case_scrutinee x :=
  lazymatch type of x with
  | bool => destruct x eqn:?
  | option _ => destruct x eqn:?
  | Result _ => destruct x eqn:?
  end.

(** Split on whatever the run is stuck on: a promise of the collaborators, an
    optional field, a test. *)
Ltac case_any :=
  match goal with
  | H : context [match ?x with _ => _ end] |- _ => case_scrutinee x
  | |- context [match ?x with _ => _ end] => case_scrutinee x
  end.

(** An event known to be in a concrete trace: find which one it is. *)
Ltac use_event H :=
  cbn in H;
  repeat (destruct H as [H | H]; [try discriminate H |]);
  try contradiction H;
  inversion H; subst; clear H; cbn.

(** ** The combinators *)

Lemma bind_ret_l {A B : Type} (a : A) (k : A -> M B) g :
  (x <- ret a ;; k x) g = k a g.
Proof. unfold bind, ret. destruct (k a g). reflexivity. Qed.

Lemma bind_throw_l {A B : Type} (err : JsThrown) (k : A -> M B) g :
  outcome ((x <- throw err ;; k x) g) = Throw err.
Proof. reflexivity. Qed.

(** A finalizer that throws decides the outcome, whatever the body did. *)
Lemma try_finally_finalizer_throws {A : Type} (body : M A) finalizer g err :
  outcome (finalizer (globals (body g))) = Throw err ->
  outcome (try_finally body finalizer g) = Throw err.
Proof.
  unfold try_finally. destruct (body g) as [result g1 evs1]. cbn [globals].
  destruct (finalizer g1) as [[u | e] g2 evs2]; cbn; congruence.
Qed.

(** A finalizer that returns leaves the outcome of the body. *)
Lemma try_finally_finalizer_returns {A : Type} (body : M A) finalizer g u :
  outcome (finalizer (globals (body g))) = Ok u ->
  outcome (try_finally body finalizer g) = outcome (body g).
Proof.
  unfold try_finally. destruct (body g) as [result g1 evs1]. cbn [globals].
  destruct (finalizer g1) as [[v | e] g2 evs2]; cbn; congruence.
Qed.

(** A handler that rethrows keeps the error. *)
Lemma try_catch_rethrow {A : Type} (body : M A) (record : JsThrown -> M unit) g err :
  outcome (body g) = Throw err ->
  (forall e g', outcome (record e g') = Ok tt) ->
  outcome (try_catch body (fun e => record e ;; throw e) g) = Throw err.
Proof.
  intros Hbody Hrecord. unfold try_catch, bind, throw.
  destruct (body g) as [[a | e] g1 evs1]; cbn in Hbody; [discriminate Hbody |].
  injection Hbody as ->. specialize (Hrecord err g1).
  destruct (record err g1) as [[u | e'] g2 evs2]; cbn in Hrecord; [reflexivity |].
  discriminate Hrecord.
Qed.

(** ** Path resolution *)

Lemma localChromiumPath_cases config :
  (localChromiumPath config = None \/ localChromiumPath config = Some "")
  \/ exists path, localChromiumPath config = Some path /\ path <> "".
Proof.
  destruct (localChromiumPath config) as [p |]; [| left; left; reflexivity].
  destruct (String.eqb p "") eqn:E.
  - apply String.eqb_eq in E. subst. left. right. reflexivity.
  - apply String.eqb_neq in E. right. exists p. split; [reflexivity | assumption].
Qed.

Lemma getExecutablePath_fallback env config g :
  localChromiumPath config = None \/ localChromiumPath config = Some "" ->
  PuppeteerService.getExecutablePath env config g =
    match chromium_executablePath env with
    | Ok p =>
        MkRun (Ok p) g
          [EvChromiumExecutablePath;
           EvLog PuppeteerService.name LevelLog
             [JObj [("msg", JStr "Using @sparticuz/chromium Chromium"); ("path", JStr p)]]]
    | Throw err => MkRun (Throw err) g [EvChromiumExecutablePath]
    end.
Proof.
  intros [H | H]; unfold PuppeteerService.getExecutablePath; rewrite H;
    cbn [negb String.eqb]; unfold_monad; cbn;
    destruct (chromium_executablePath env); reflexivity.
Qed.

Lemma getExecutablePath_local env config g path :
  localChromiumPath config = Some path -> path <> "" ->
  PuppeteerService.getExecutablePath env config g =
    MkRun (Ok path) g
      [EvLog PuppeteerService.name LevelLog
         [JObj [("msg", JStr "Using local Chromium"); ("path", JStr path)]]].
Proof.
  intros H Hne. unfold PuppeteerService.getExecutablePath. rewrite H.
  destruct (String.eqb path "") eqn:E.
  - apply String.eqb_eq in E. contradiction.
  - reflexivity.
Qed.

(** Run [generatePdf] or [generateImage] along every path: first the two ways
    the executable is resolved, then every way a promise can settle. *)
Ltac run_puppeteer :=
  unfold PuppeteerService.generatePdf, PuppeteerService.generateImage in *;
  unfold_monad;
  match goal with
  | |- context [PuppeteerService.getExecutablePath ?env ?config ?g] =>
      let Hpath := fresh "Hpath" in
      let Hne := fresh "Hne" in
      let path := fresh "path" in
      destruct (localChromiumPath_cases config) as [Hpath | (path & Hpath & Hne)];
      [ rewrite ?(getExecutablePath_fallback env config g Hpath) in *
      | rewrite ?(getExecutablePath_local env config g path Hpath Hne) in * ]
  | H : context [PuppeteerService.getExecutablePath ?env ?config ?g] |- _ =>
      let Hpath := fresh "Hpath" in
      let Hne := fresh "Hne" in
      let path := fresh "path" in
      destruct (localChromiumPath_cases config) as [Hpath | (path & Hpath & Hne)];
      [ rewrite ?(getExecutablePath_fallback env config g Hpath) in *
      | rewrite ?(getExecutablePath_local env config g path Hpath Hne) in * ]
  end;
  cbn in *;
  repeat (case_any; cbn in * ).

(** A variable the required ones do not include does not matter to the
    check. *)
Lemma check_required_other (penv : gmap string string) key v keys :
  ~ In key keys ->
  check_required (<[key := v]> penv) keys = check_required (delete key penv) keys.
Proof.
  induction keys as [| k rest IH]; intros Hnot; [reflexivity |].
  cbn [check_required]. unfold env_missing.
  assert (key <> k) by (intros ->; apply Hnot; left; reflexivity).
  rewrite lookup_insert_ne, lookup_delete_ne by assumption.
  rewrite IH; [reflexivity |]. intros Hin. apply Hnot. right. exact Hin.
Qed.

(** C9. Path resolution: with [localChromiumPath] undefined or empty the
    result is whatever [chromium.executablePath()] settles to, and that
    lookup is made once; with a non-empty path the result is that path and
    the lookup is never made. The resolved path is the one both
    [generatePdf] and [generateImage] launch with. The empty string behaves
    like an absent setting, in path resolution and in [appConfig]. *)
Theorem executable_path_resolution env config g :
  let r := PuppeteerService.getExecutablePath env config g in
  (localChromiumPath config = None \/ localChromiumPath config = Some "" ->
     outcome r = chromium_executablePath env
     /\ count_events is_chromium_lookup (events r) = 1%nat)
  /\ (forall path, localChromiumPath config = Some path -> path <> "" ->
        outcome r = Ok path
        /\ count_events is_chromium_lookup (events r) = 0%nat)
  /\ (forall html options lo,
        In (EvLaunch lo) (events (PuppeteerService.generatePdf env config html options g)) ->
        outcome r = Ok (executablePath lo))
  /\ (forall html options lo,
        In (EvLaunch lo) (events (PuppeteerService.generateImage env config html options g)) ->
        outcome r = Ok (executablePath lo))
  /\ PuppeteerService.getExecutablePath env (with_localChromiumPath (Some "") config) g
     = PuppeteerService.getExecutablePath env (with_localChromiumPath None config) g
  /\ (forall parseInt penv,
        appConfig parseInt (<["LOCAL_CHROMIUM_PATH" := ""]> penv)
        = appConfig parseInt (delete "LOCAL_CHROMIUM_PATH" penv)
        /\ forall loaded,
             appConfig parseInt (<["LOCAL_CHROMIUM_PATH" := ""]> penv) = Ok loaded ->
             localChromiumPath loaded = None).
Proof.
  cbv zeta. split; [| split; [| split; [| split; [| split]]]].
  - intros Hpath. rewrite (getExecutablePath_fallback env config g Hpath).
    destruct (chromium_executablePath env); split; reflexivity.
  - intros path Hpath Hne. rewrite (getExecutablePath_local env config g path Hpath Hne).
    split; reflexivity.
  - intros html options lo Hin. run_puppeteer; use_event Hin; reflexivity.
  - intros html options lo Hin. run_puppeteer; use_event Hin; reflexivity.
  - reflexivity.
  - intros parseInt penv.
    assert (appConfig parseInt (<["LOCAL_CHROMIUM_PATH" := ""]> penv)
            = appConfig parseInt (delete "LOCAL_CHROMIUM_PATH" penv)) as Heq.
    { unfold appConfig. rewrite check_required_other.
      - destruct (check_required (delete "LOCAL_CHROMIUM_PATH" penv) required);
          [| reflexivity].
        rewrite lookup_insert_eq, lookup_delete_eq.
        rewrite !lookup_insert_ne, !lookup_delete_ne by discriminate. reflexivity.
      - unfold required. cbn. intros [H | [H | [H | []]]]; discriminate H. }
    split; [exact Heq |].
    intros loaded. rewrite Heq. unfold appConfig.
    destruct (check_required (delete "LOCAL_CHROMIUM_PATH" penv) required); [| discriminate].
    intros H. injection H as <-. cbn. rewrite lookup_delete_eq. reflexivity.
Qed.

Lemma executable_path_resolution_witness :
  outcome (PuppeteerService.getExecutablePath env_ok (config_of (Some "")) g0)
    = Ok "/tmp/chromium-bin"
  /\ outcome (PuppeteerService.getExecutablePath env_ok (config_of (Some "/usr/bin/chromium")) g0)
    = Ok "/usr/bin/chromium".
Proof.
  split.
  - destruct (executable_path_resolution env_ok (config_of (Some "")) g0) as [Hfallback _].
    destruct Hfallback as [H _]; [right; reflexivity | exact H].
  - destruct (executable_path_resolution env_ok (config_of (Some "/usr/bin/chromium")) g0)
      as (_ & Hlocal & _).
    destruct (Hlocal "/usr/bin/chromium") as [H _]; [reflexivity | discriminate | exact H].
Defined.

(** ** The capture request of [generateImage] *)

Example explicit_clip_wins :
  screenshot_requests
    (events (PuppeteerService.generateImage env_ok (config_of None) "<html></html>"
               (Some (image_options None None (Some custom_clip) None)) g0))
  = [{| type := Some Png; omitBackground := Some false; quality := None;
        clip := Some custom_clip; fullPage := None |}].
Proof. reflexivity. Qed.

Example zero_probe_falls_back_to_fullPage :
  screenshot_requests
    (events (PuppeteerService.generateImage
               (env_probing {| dim_width := 0; dim_height := 0 |})
               (config_of None) "<html></html>" None g0))
  = [{| type := Some Png; omitBackground := Some false; quality := None;
        clip := None; fullPage := Some true |}].
Proof. reflexivity. Qed.

Example fullPage_false_is_kept :
  screenshot_requests
    (events (PuppeteerService.generateImage
               (env_probing {| dim_width := 800; dim_height := 0 |})
               (config_of None) "<html></html>"
               (Some (image_options (Some Webp) (Some 0) None (Some false))) g0))
  = [{| type := Some Webp; omitBackground := Some false; quality := Some 0;
        clip := None; fullPage := Some false |}].
Proof. reflexivity. Qed.

Example png_drops_quality :
  screenshot_requests
    (events (PuppeteerService.generateImage env_ok (config_of None) "<html></html>"
               (Some (image_options (Some Png) (Some 50) None None)) g0))
  = [screenshot_png_autofit].
Proof. reflexivity. Qed.

(** The capture is reached, once, whenever every step before it resolves. *)
Lemma capture_request_sent env config html options g path d :
  outcome (PuppeteerService.getExecutablePath env config g) = Ok path ->
  (forall lo, puppeteer_launch env lo = Ok tt) ->
  browser_newPage env = Ok tt ->
  (forall waitUntil, page_setContent env html waitUntil = Ok tt) ->
  page_evaluate env = Ok d ->
  exists so,
    screenshot_requests (events (PuppeteerService.generateImage env config html options g))
    = [so].
Proof.
  intros Hpath Hlaunch Hpage Hcontent Hprobe.
  unfold PuppeteerService.generateImage. unfold_monad.
  destruct (localChromiumPath_cases config) as [Hc | (q & Hc & Hne)].
  - rewrite (getExecutablePath_fallback env config g Hc) in *.
    destruct (chromium_executablePath env); [| discriminate Hpath].
    cbn. rewrite Hlaunch, Hpage, Hcontent, Hprobe. cbn.
    repeat (case_any; cbn); eexists; reflexivity.
  - rewrite (getExecutablePath_local env config g q Hc Hne) in *.
    cbn. rewrite Hlaunch, Hpage, Hcontent, Hprobe. cbn.
    repeat (case_any; cbn); eexists; reflexivity.
Qed.

(** C1. Clip strategy: a clip supplied by the caller is sent verbatim;
    otherwise a probe with positive width and height gives the clip
    [{x: 0, y: 0, width, height}]; otherwise [fullPage] is sent, with the
    caller's value or [true]. In each case exactly one of [clip] and
    [fullPage] is a key of the request. *)
Theorem screenshot_region env config html options g so :
  In (EvScreenshot so) (events (PuppeteerService.generateImage env config html options g)) ->
  ((exists c, clip so = Some c) /\ fullPage so = None
   \/ clip so = None /\ exists b, fullPage so = Some b)
  /\ match options ?. img_clip with
     | Some customClip => clip so = Some customClip /\ fullPage so = None
     | None =>
         exists d, page_evaluate env = Ok d /\
           if (0 <? dim_width d) && (0 <? dim_height d)
           then clip so = Some {| clip_x := 0; clip_y := 0;
                                  clip_width := dim_width d; clip_height := dim_height d |}
                /\ fullPage so = None
           else clip so = None /\ fullPage so = Some (options ?. img_fullPage ?? true)
     end.
Proof.
  intros Hin. run_puppeteer; use_event Hin.
  all: split;
    [ first [ left; split; [eexists |]; reflexivity
            | right; split; [| eexists]; reflexivity ]
    | try (split; reflexivity) ].
  all: eexists; split; [reflexivity |].
  all: match goal with H : (_ && _) = _ |- _ => rewrite H end; split; reflexivity.
Qed.

Lemma screenshot_region_witness :
  clip screenshot_png_autofit = Some autofit_800_600
  /\ fullPage screenshot_png_autofit = None.
Proof.
  destruct (screenshot_region env_ok (config_of None) "<html></html>" None g0
              screenshot_png_autofit) as [_ H].
  - cbn. do 7 right. left. reflexivity.
  - cbn in H. destruct H as (d & Hd & H). injection Hd as <-. exact H.
Defined.

(** C6. Quality gating: the request carries the resolved type; for "png" it
    has no [quality] key whatever the caller supplied, for "jpeg" and "webp"
    it has the caller's quality, or 80. *)
Theorem screenshot_quality env config html options g so :
  In (EvScreenshot so) (events (PuppeteerService.generateImage env config html options g)) ->
  type so = Some (options ?. img_type ?? Png)
  /\ quality so = match options ?. img_type ?? Png with
                  | Png => None
                  | Jpeg | Webp => Some (options ?. img_quality ?? 80)
                  end.
Proof.
  intros Hin. run_puppeteer; use_event Hin.
  all: destruct (options ?. img_type ?? Png); cbn in *; try discriminate.
  all: split; reflexivity.
Qed.

Lemma screenshot_quality_witness :
  type screenshot_jpeg_autofit = Some Jpeg /\ quality screenshot_jpeg_autofit = Some 80.
Proof.
  apply (screenshot_quality env_ok (config_of None) "<html></html>" (Some jpeg_only) g0
           screenshot_jpeg_autofit).
  cbn. do 7 right. left. reflexivity.
Defined.

(** C8. The viewport is fixed at launch: when the executable resolves, the
    first thing [generateImage] does after the resolution is the one launch
    of the run, its [defaultViewport] holds every supplied field unchanged
    and the defaults 1, false, false, true, 320, 1080 for the others, and no
    content was loaded before it. *)
Theorem viewport_fixed_at_launch env config html options g :
  let resolution := PuppeteerService.getExecutablePath env config g in
  let r := PuppeteerService.generateImage env config html options g in
  count_events is_setContent (events resolution) = 0%nat
  /\ match outcome resolution with
     | Throw _ => events r = events resolution
     | Ok path =>
         exists lo rest,
           events r = events resolution ++ EvLaunch lo :: rest
           /\ executablePath lo = path
           /\ count_events is_launch rest = 0%nat
           /\ exists v, defaultViewport lo = Some v
              /\ resolved (options ?. img_deviceScaleFactor) 1 (deviceScaleFactor v)
              /\ resolved (options ?. img_hasTouch) false (hasTouch v)
              /\ resolved (options ?. img_isLandscape) false (isLandscape v)
              /\ resolved (options ?. img_isMobile) true (isMobile v)
              /\ resolved (options ?. img_width) 320 (width v)
              /\ resolved (options ?. img_height) 1080 (height v)
     end.
Proof.
  cbv zeta. run_puppeteer.
  all: split; [reflexivity |]; try reflexivity.
  all: eexists; eexists; split; [reflexivity |]; split; [reflexivity |]; split; [reflexivity |].
  all: eexists; split; [reflexivity |]; cbn.
  all: unfold resolved, nullish; repeat split.
  all: match goal with |- context [match ?x with _ => _ end] => destruct x; reflexivity end.
Qed.

(** ** The export request of [generatePdf] *)

(** C4, as the code has it. Every field of the request is the caller's
    value when supplied and its default otherwise (A4, false, true, true,
    true); [margin] is one such field: without a [margin] object all four
    sides are "10mm", and a supplied [margin] object is passed on as it is. *)
Theorem pdf_options_defaults env config html options g po :
  In (EvPdf po) (events (PuppeteerService.generatePdf env config html options g)) ->
  resolved (options ?. pdf_format) A4 (format po)
  /\ resolved (options ?. pdf_landscape) false (landscape po)
  /\ resolved (options ?. pdf_printBackground) true (printBackground po)
  /\ resolved (options ?. pdf_margin) ten_mm (margin po)
  /\ resolved (options ?. pdf_tagged) true (tagged po)
  /\ resolved (options ?. pdf_preferCSSPageSize) true (preferCSSPageSize po).
Proof.
  intros Hin. run_puppeteer; use_event Hin.
  all: unfold resolved, nullish; repeat split.
  all: match goal with |- context [match ?x with _ => _ end] => destruct x; reflexivity end.
Qed.

Lemma pdf_options_defaults_witness :
  resolved (Some margin_top_only ?. pdf_margin) ten_mm (margin pdf_margin_top_only)
  /\ resolved (Some margin_top_only ?. pdf_tagged) true (tagged pdf_margin_top_only).
Proof.
  destruct (pdf_options_defaults env_ok (config_of None) "<html></html>"
              (Some margin_top_only) g0 pdf_margin_top_only)
    as (_ & _ & _ & Hmargin & Htagged & _).
  - cbn. do 5 right. left. reflexivity.
  - split; assumption.
Defined.

(** C4, as stated, fails: a caller supplying only [margin.top] gets a request
    whose [margin.right] is unset, not "10mm". *)
Lemma margin_sides_not_defaulted :
  exists po,
    In (EvPdf po) (events (PuppeteerService.generatePdf env_ok (config_of None) "<html></html>"
                             (Some margin_top_only) g0))
    /\ top (margin po) = Some "5mm"
    /\ right (margin po) = None
    /\ right (margin po) <> Some "10mm".
Proof.
  exists pdf_margin_top_only. split; [cbn; do 5 right; left; reflexivity |].
  cbn. repeat split. discriminate.
Qed.

(** ** Closing the browser *)

(** C2, as the code has it. Once the launch has succeeded, either render
    call closes the browser exactly once, on every path. When the export or
    capture step throws [err], the caller sees [err] if the close succeeds,
    and the error of the close if the close fails. *)
Theorem browser_closed_on_every_path env config html g :
  (forall options lo,
     let r := PuppeteerService.generatePdf env config html options g in
     In (EvLaunch lo) (events r) -> puppeteer_launch env lo = Ok tt ->
     count_events is_close (events r) = 1%nat
     /\ forall po err, In (EvPdf po) (events r) -> page_pdf env po = Throw err ->
          outcome r = propagated_after_close env err)
  /\ (forall options lo,
     let r := PuppeteerService.generateImage env config html options g in
     In (EvLaunch lo) (events r) -> puppeteer_launch env lo = Ok tt ->
     count_events is_close (events r) = 1%nat
     /\ forall so err, In (EvScreenshot so) (events r) -> page_screenshot env so = Throw err ->
          outcome r = propagated_after_close env err).
Proof.
  unfold propagated_after_close. split; intros options lo; cbv zeta; intros Hlaunch Hok.
  - run_puppeteer; use_event Hlaunch; try congruence.
    all: split; [reflexivity |]; intros po failure Hin Hpo; use_event Hin; congruence.
  - run_puppeteer; use_event Hlaunch; try congruence.
    all: split; [reflexivity |]; intros so failure Hin Hso; use_event Hin; congruence.
Qed.

Lemma browser_closed_on_every_path_witness :
  count_events is_close (events run_image_export_fails) = 1%nat
  /\ outcome run_image_export_fails = Throw render_failed.
Proof.
  unfold run_image_export_fails.
  destruct (browser_closed_on_every_path env_export_fails (config_of None) "<html></html>" g0)
    as [_ Himage].
  destruct (Himage None launch_image_default) as [Hcount Hprop].
  - cbn. do 2 right. left. reflexivity.
  - reflexivity.
  - split; [exact Hcount |].
    apply (Hprop screenshot_png_autofit).
    + cbn. do 7 right. left. reflexivity.
    + reflexivity.
Defined.

(** C2, as stated, fails: the export throws "render failed", the close
    throws "close failed", and the caller sees "close failed". *)
Lemma close_error_masks_export_error :
  (exists lo, In (EvLaunch lo) (events run_pdf_close_fails)
              /\ puppeteer_launch env_close_fails lo = Ok tt)
  /\ (exists po, In (EvPdf po) (events run_pdf_close_fails)
                 /\ page_pdf env_close_fails po = Throw render_failed)
  /\ count_events is_close (events run_pdf_close_fails) = 1%nat
  /\ browser_close env_close_fails = Throw close_failed
  /\ outcome run_pdf_close_fails = Throw close_failed
  /\ outcome run_pdf_close_fails <> Throw render_failed.
Proof.
  unfold run_pdf_close_fails. split; [| split; [| split; [| split; [| split]]]].
  - eexists. split; [| reflexivity]. cbn. do 2 right. left. reflexivity.
  - eexists. split; [| reflexivity]. cbn. do 5 right. left. reflexivity.
  - reflexivity.
  - reflexivity.
  - reflexivity.
  - cbn. discriminate.
Qed.

(** ** The pipeline of [process] *)

(** [process] step by step: what it returns and records, given how the
    render step and the upload step ran. *)
Lemma process_steps env config s3Service job g :
  PdfGenerationProcessor.process env config s3Service job g =
  match render_step env config job g with
  | MkRun (Throw err) g1 rendering =>
      MkRun (Throw err) g1 (started_log job :: rendering ++ [failure_log job err])
  | MkRun (Ok buffer) g1 rendering =>
      match upload_step env s3Service job buffer g1 with
      | MkRun (Throw err) g2 uploading =>
          MkRun (Throw err) g2
            (started_log job :: rendering ++ generated_log job buffer :: uploading
               ++ [failure_log job err])
      | MkRun (Ok url) g2 uploading =>
          MkRun (Ok (job_result env job url)) g2
            (started_log job :: rendering ++ generated_log job buffer :: uploading
               ++ [uploaded_log job url; EvDateNow; completed_log job url])
      end
  end.
Proof.
  unfold PdfGenerationProcessor.process, render_step, upload_step.
  unfold try_catch, bind at 1 2 3. unfold logger_log at 1, logger_error, emit, throw.
  cbn [app].
  match goal with
  | |- context [match documentType (data job) with Pdf => ?p | Image => ?i end] =>
      destruct (match documentType (data job) with Pdf => p | Image => i end g)
        as [[buffer | err] g1 rendering]
  end.
  - unfold logger_log, emit, ret.
    cbn -[S3Service.upload obj_spread spread_if].
    unfold bind at 1.
    destruct (S3Service.upload env s3Service (s3Key (data job)) buffer
                (documentType (data job)) g1) as [[url | err] g2 uploading].
    + reflexivity.
    + cbn. rewrite <- app_assoc. reflexivity.
  - reflexivity.
Qed.

Lemma count_events_app p xs ys :
  count_events p (xs ++ ys) = (count_events p xs + count_events p ys)%nat.
Proof. unfold count_events. rewrite List.filter_app, length_app. reflexivity. Qed.

Lemma s3_commands_app xs ys : s3_commands (xs ++ ys) = s3_commands xs ++ s3_commands ys.
Proof.
  induction xs as [| ev xs IH]; [reflexivity |].
  destruct ev; cbn; rewrite ?IH; reflexivity.
Qed.

(** Rendering never touches the blob store or the clock. *)
Lemma render_step_events env config job g :
  count_events is_upload (events (render_step env config job g)) = 0%nat
  /\ count_events is_dateNow (events (render_step env config job g)) = 0%nat
  /\ s3_commands (events (render_step env config job g)) = [].
Proof.
  unfold render_step. destruct (documentType (data job)).
  - run_puppeteer; repeat split; reflexivity.
  - run_puppeteer; repeat split; reflexivity.
Qed.

(** One [send], with the content type of the document type; the URL is built
    from the bucket and the key once the [send] has resolved. *)
Lemma upload_run env this key buffer documentType g :
  let command :=
    {| Bucket := S3Service.bucket this;
       Key := key;
       Body := buffer;
       ContentType := content_type_of documentType |} in
  let r := S3Service.upload env this key buffer documentType g in
  s3_commands (events r) = [command]
  /\ outcome r =
       match s3_send env command with
       | Ok _ => Ok ("https://" +:+ S3Service.bucket this +:+ ".s3.amazonaws.com/" +:+ key)
       | Throw err => Throw err
       end
  /\ count_events is_dateNow (events r) = 0%nat.
Proof.
  cbv zeta. unfold S3Service.upload, content_type_of. unfold_monad. cbn.
  destruct (s3_send env _); cbn; repeat split; reflexivity.
Qed.

(** The events of a whole run, grouped by step. *)
Lemma events_by_step (started : Event) rendering (generated : Event) uploading closing :
  started :: rendering ++ generated :: uploading ++ closing
  = [started] ++ rendering ++ [generated] ++ uploading ++ closing.
Proof. reflexivity. Qed.

(** C3. Failure contract of [process]. When the render step throws [err]:
    [process] throws the same [err], the run is the start record, the render
    step and the structured failure record, with no upload and no result
    built. When the upload throws [err]: [process] throws [err] after the
    failure record and builds no result. A result is returned only when the
    render step and then the upload succeeded. *)
Theorem process_failure_contract env config s3Service job g :
  let p := PdfGenerationProcessor.process env config s3Service job g in
  let r := render_step env config job g in
  (forall err, outcome r = Throw err ->
     outcome p = Throw err
     /\ events p = started_log job :: events r ++ [failure_log job err]
     /\ count_events is_upload (events p) = 0%nat
     /\ count_events is_dateNow (events p) = 0%nat)
  /\ (forall buffer err,
        outcome r = Ok buffer ->
        outcome (upload_step env s3Service job buffer (globals r)) = Throw err ->
        outcome p = Throw err
        /\ (exists before, events p = before ++ [failure_log job err])
        /\ count_events is_dateNow (events p) = 0%nat)
  /\ (forall result, outcome p = Ok result ->
        exists buffer url,
          outcome r = Ok buffer
          /\ outcome (upload_step env s3Service job buffer (globals r)) = Ok url
          /\ result = job_result env job url
          /\ count_events is_dateNow (events p) = 1%nat).
Proof.
  cbv zeta. rewrite process_steps.
  pose proof (render_step_events env config job g) as (Hup & Hdate & _).
  destruct (render_step env config job g) as [[buffer | failure] g1 rendering];
    cbn [outcome globals events] in *.
  - pose proof (upload_run env s3Service (s3Key (data job)) buffer
                  (documentType (data job)) g1) as (_ & _ & Hdate').
    fold (upload_step env s3Service job buffer g1) in Hdate'.
    destruct (upload_step env s3Service job buffer g1)
      as [[url | failure] g2 uploading] eqn:Hupload;
      cbn [outcome globals events] in *.
    + split; [intros err H; discriminate H |].
      split.
      { intros b err Hb H. injection Hb as <-. rewrite Hupload in H. discriminate H. }
      intros result H. injection H as <-. exists buffer, url.
      rewrite Hupload. repeat split.
      rewrite events_by_step, !count_events_app, Hdate, Hdate'. reflexivity.
    + split; [intros err H; discriminate H |].
      split; [| intros result H; discriminate H].
      intros b err Hb H. injection Hb as <-. rewrite Hupload in H. injection H as <-.
      split; [reflexivity |]. split.
      * exists (started_log job :: rendering ++ generated_log job buffer :: uploading).
        cbn [app]. rewrite <- app_assoc. reflexivity.
      * rewrite events_by_step, !count_events_app, Hdate, Hdate'. reflexivity.
  - split; [| split; [intros b err H; discriminate H | intros result H; discriminate H]].
    intros err H. injection H as <-.
    split; [reflexivity |]. split; [reflexivity |].
    change (started_log job :: rendering ++ [failure_log job failure])
      with ([started_log job] ++ rendering ++ [failure_log job failure]).
    rewrite !count_events_app, Hup, Hdate. split; reflexivity.
Qed.

Lemma process_failure_contract_witness :
  outcome (PdfGenerationProcessor.process env_export_fails (config_of None) s3_test job_pdf g0)
    = Throw render_failed
  /\ outcome (PdfGenerationProcessor.process env_upload_fails (config_of None) s3_test job_pdf g0)
    = Throw access_denied
  /\ exists buffer, outcome (render_step env_ok (config_of None) job_pdf g0) = Ok buffer.
Proof.
  split; [| split].
  - destruct (process_failure_contract env_export_fails (config_of None) s3_test job_pdf g0)
      as [Hrender _].
    destruct (Hrender render_failed) as [H _]; [reflexivity | exact H].
  - destruct (process_failure_contract env_upload_fails (config_of None) s3_test job_pdf g0)
      as (_ & Hupload & _).
    destruct (Hupload pdf_bytes access_denied) as [H _];
      [reflexivity | reflexivity | exact H].
  - destruct (process_failure_contract env_ok (config_of None) s3_test job_pdf g0)
      as (_ & _ & Hok).
    destruct (Hok (job_result env_ok job_pdf
                     "https://test-bucket.s3.amazonaws.com/docs/user-abc/file.pdf"))
      as (buffer & url & H & _); [reflexivity |].
    exists buffer. exact H.
Defined.

(** ** The result object *)

Lemma job_result_metaData env job url :
  job_result env job url !! "metaData" =
    if is_defined (metaData (data job)) then Some (metaData (data job)) else None.
Proof.
  unfold job_result, obj_spread, spread_if.
  destruct (is_defined (metaData (data job))).
  - apply lookup_union_Some_l. apply lookup_singleton_eq.
  - rewrite (left_id_L ∅ (∪)).
    rewrite !lookup_insert_ne by discriminate. apply lookup_singleton_ne. discriminate.
Qed.

Lemma is_defined_spec v : is_defined v = true <-> v <> JUndefined.
Proof. destruct v; cbn; split; congruence. Qed.

(** C5. The result of a job that went through has the key [metaData] exactly
    when the job's [metaData] is not [undefined]; the value is then the
    job's, unchanged, and otherwise the key is not there. *)
Theorem result_metaData env config s3Service job g (result : gmap string JsVal) :
  outcome (PdfGenerationProcessor.process env config s3Service job g) = Ok result ->
  ("metaData" ∈ dom result <-> metaData (data job) <> JUndefined)
  /\ (metaData (data job) <> JUndefined ->
        result !! "metaData" = Some (metaData (data job)))
  /\ (metaData (data job) = JUndefined -> result !! "metaData" = None).
Proof.
  intros Hok. rewrite process_steps in Hok.
  destruct (render_step env config job g) as [[buffer | failure] g1 rendering];
    [| discriminate Hok].
  destruct (upload_step env s3Service job buffer g1) as [[url | failure] g2 uploading];
    [| discriminate Hok].
  injection Hok as <-.
  pose proof (job_result_metaData env job url) as Hmeta.
  pose proof (is_defined_spec (metaData (data job))) as Hdef.
  rewrite elem_of_dom, Hmeta.
  destruct (is_defined (metaData (data job))).
  - split; [| split].
    + split; [intros _; apply Hdef; reflexivity | intros _; eexists; reflexivity].
    + intros _. reflexivity.
    + intros Hundef. exfalso. apply Hdef; [reflexivity | exact Hundef].
  - split; [| split].
    + split; [intros [v Hv]; discriminate Hv |].
      intros Hne. apply Hdef in Hne. discriminate Hne.
    + intros Hne. apply Hdef in Hne. discriminate Hne.
    + intros _. reflexivity.
Qed.

Lemma result_metaData_witness :
  job_result env_ok job_pdf "https://test-bucket.s3.amazonaws.com/docs/user-abc/file.pdf"
    !! "metaData" = Some invoice_meta
  /\ job_result env_ok job_image "https://test-bucket.s3.amazonaws.com/imgs/user-abc/img.jpg"
    !! "metaData" = None.
Proof.
  split.
  - apply (result_metaData env_ok (config_of None) s3_test job_pdf g0); [reflexivity |].
    discriminate.
  - apply (result_metaData env_ok (config_of None) s3_test job_image g0); reflexivity.
Defined.

(** ** Upload *)

(** C7. [upload] sends one command, with content type "application/pdf" for
    a PDF and "image/png" for an image, and returns
    [https://{bucket}.s3.amazonaws.com/{key}] once the send has resolved.
    Through [process] the content type depends on the document type alone,
    whatever image format the job asks for. *)
Theorem upload_content_type_and_url env config this job g :
  (forall key buffer documentType,
     let command := {| Bucket := S3Service.bucket this;
                       Key := key;
                       Body := buffer;
                       ContentType := match documentType with
                                      | Pdf => "application/pdf"
                                      | Image => "image/png"
                                      end |} in
     let r := S3Service.upload env this key buffer documentType g in
     s3_commands (events r) = [command]
     /\ outcome r =
          match s3_send env command with
          | Ok _ => Ok ("https://" +:+ S3Service.bucket this +:+ ".s3.amazonaws.com/" +:+ key)
          | Throw err => Throw err
          end)
  /\ (forall command,
        In command
           (s3_commands (events (PdfGenerationProcessor.process env config this job g))) ->
        ContentType command = match documentType (data job) with
                              | Pdf => "application/pdf"
                              | Image => "image/png"
                              end).
Proof.
  split.
  - intros key buffer documentType. cbv zeta.
    pose proof (upload_run env this key buffer documentType g) as (Hsend & Hout & _).
    split; [exact Hsend | exact Hout].
  - intros command Hin. rewrite process_steps in Hin.
    pose proof (render_step_events env config job g) as (_ & _ & Hrender).
    destruct (render_step env config job g) as [[buffer | failure] g1 rendering];
      cbn [events] in Hrender.
    + pose proof (upload_run env this (s3Key (data job)) buffer (documentType (data job)) g1)
        as (Hsend & _ & _).
      fold (upload_step env this job buffer g1) in Hsend.
      destruct (upload_step env this job buffer g1) as [[url | failure] g2 uploading];
        cbn [events] in Hsend, Hin;
        rewrite events_by_step, !s3_commands_app, Hrender, Hsend in Hin;
        cbn in Hin; destruct Hin as [<- | []]; reflexivity.
    + cbn [events] in Hin.
      change (started_log job :: rendering ++ [failure_log job failure])
        with ([started_log job] ++ rendering ++ [failure_log job failure]) in Hin.
      rewrite !s3_commands_app, Hrender in Hin. cbn in Hin. contradiction.
Qed.

Lemma upload_content_type_and_url_witness :
  ContentType {| Bucket := "test-bucket";
                 Key := "imgs/user-abc/img.jpg";
                 Body := png_bytes;
                 ContentType := "image/png" |} = "image/png".
Proof.
  apply (proj2 (upload_content_type_and_url env_ok (config_of None) s3_test job_image g0)).
  cbn. left. reflexivity.
Defined.

(** ** Options of the other document type *)

(** C10. A PDF job runs the same whatever its [imageOptions], and an image
    job the same whatever its [pdfOptions]: the same calls, in the same
    order, and the same outcome. *)
Theorem mismatched_options_ignored env config s3Service job g :
  (forall o, documentType (data job) = Pdf ->
     PdfGenerationProcessor.process env config s3Service
       (with_data (with_imageOptions o (data job)) job) g
     = PdfGenerationProcessor.process env config s3Service job g)
  /\ (forall o, documentType (data job) = Image ->
     PdfGenerationProcessor.process env config s3Service
       (with_data (with_pdfOptions o (data job)) job) g
     = PdfGenerationProcessor.process env config s3Service job g).
Proof.
  destruct job as [id queue [uid dt html key po io md]].
  split; intros o Hdt; cbn in Hdt; subst dt; reflexivity.
Qed.

Lemma mismatched_options_ignored_witness :
  PdfGenerationProcessor.process env_ok (config_of None) s3_test
    (with_data (with_imageOptions (Some jpeg_only) (data job_pdf)) job_pdf) g0
  = PdfGenerationProcessor.process env_ok (config_of None) s3_test job_pdf g0
  /\ PdfGenerationProcessor.process env_ok (config_of None) s3_test
    (with_data (with_pdfOptions (Some margin_top_only) (data job_image)) job_image) g0
  = PdfGenerationProcessor.process env_ok (config_of None) s3_test job_image g0.
Proof.
  split.
  - apply (proj1 (mismatched_options_ignored env_ok (config_of None) s3_test job_pdf g0)).
    reflexivity.
  - apply (proj2 (mismatched_options_ignored env_ok (config_of None) s3_test job_image g0)).
    reflexivity.
Defined.

(** * Further properties *)

(** ** Configuration loading *)

Lemma check_required_insert_other (penv : gmap string string) key v keys :
  ~ In key keys ->
  check_required (<[key := v]> penv) keys = check_required penv keys.
Proof.
  induction keys as [| k rest IH]; intros Hnot; [reflexivity |].
  cbn [check_required]. unfold env_missing.
  assert (key <> k) by (intros ->; apply Hnot; left; reflexivity).
  rewrite lookup_insert_ne by assumption.
  rewrite IH; [reflexivity |]. intros Hin. apply Hnot. right. exact Hin.
Qed.

Lemma check_required_delete_other (penv : gmap string string) key keys :
  ~ In key keys ->
  check_required (delete key penv) keys = check_required penv keys.
Proof.
  induction keys as [| k rest IH]; intros Hnot; [reflexivity |].
  cbn [check_required]. unfold env_missing.
  assert (key <> k) by (intros ->; apply Hnot; left; reflexivity).
  rewrite lookup_delete_ne by assumption.
  rewrite IH; [reflexivity |]. intros Hin. apply Hnot. right. exact Hin.
Qed.

(** The check stops at the first key, in the order of the list, that is
    unset or empty. *)
Lemma check_required_first_missing (penv : gmap string string) keys :
  check_required penv keys =
    match List.find (env_missing penv) keys with
    | Some key => Throw (missing_variable key)
    | None => Ok tt
    end.
Proof.
  induction keys as [| k rest IH]; [reflexivity |].
  cbn [check_required List.find]. destruct (env_missing penv k); [reflexivity | exact IH].
Qed.

Lemma env_missing_false (penv : gmap string string) key :
  env_missing penv key = false <-> exists v, penv !! key = Some v /\ v <> "".
Proof.
  unfold env_missing. destruct (penv !! key) as [s |].
  - destruct (String.eqb s "") eqn:E.
    + apply String.eqb_eq in E. split; [discriminate |].
      intros (v & Hv & Hne). injection Hv as <-. contradiction.
    + apply String.eqb_neq in E. split; [| reflexivity].
      intros _. exists s. split; [reflexivity | exact E].
  - split; [discriminate |]. intros (v & Hv & _). discriminate Hv.
Qed.

(** What a successful load tells: the three required variables are set and
    not empty, and the configuration is the record built from the
    environment. *)
Lemma appConfig_loaded parseInt (penv : gmap string string) config :
  appConfig parseInt penv = Ok config ->
  (forall key, In key required -> exists v, penv !! key = Some v /\ v <> "")
  /\ config =
       {| redisHost := (penv !! "REDIS_HOST") ?? "localhost";
          redisPort := parseInt ((penv !! "REDIS_PORT") ?? "6379") 10;
          redisPassword := or_undefined (penv !! "REDIS_PASSWORD");
          redisTls := match penv !! "REDIS_TLS" with
                      | Some s => String.eqb s "true"
                      | None => false
                      end;
          s3BucketName := (penv !! "S3_BUCKET_NAME") ?? "trino-doc-worker-bucket";
          awsRegion := (penv !! "AWS_REGION") ?? "us-east-1";
          pdfGenerationQueue := (penv !! "PDF_GENERATION_QUEUE") ?? "pdf-generation";
          localChromiumPath := or_undefined (penv !! "LOCAL_CHROMIUM_PATH");
          nodeEnv := (penv !! "NODE_ENV") ?? "production" |}.
Proof.
  intros Hload. unfold appConfig in Hload.
  rewrite check_required_first_missing in Hload. unfold required in *.
  cbn [List.find] in Hload.
  destruct (env_missing penv "REDIS_HOST") eqn:H1; [discriminate Hload |].
  destruct (env_missing penv "S3_BUCKET_NAME") eqn:H2; [discriminate Hload |].
  destruct (env_missing penv "AWS_REGION") eqn:H3; [discriminate Hload |].
  injection Hload as <-. split; [| reflexivity].
  intros key Hin. apply env_missing_false.
  destruct Hin as [<- | [<- | [<- | []]]]; assumption.
Qed.

(** X1. A required variable that is unset or empty makes [appConfig] throw,
    and the message names the first such variable in the order REDIS_HOST,
    S3_BUCKET_NAME, AWS_REGION; with the three of them set to non-empty
    values [appConfig] returns a configuration. *)
Theorem appConfig_required_variables parseInt (penv : gmap string string) :
  (env_missing penv "REDIS_HOST" = true ->
     appConfig parseInt penv = Throw (missing_variable "REDIS_HOST"))
  /\ (env_missing penv "REDIS_HOST" = false ->
      env_missing penv "S3_BUCKET_NAME" = true ->
     appConfig parseInt penv = Throw (missing_variable "S3_BUCKET_NAME"))
  /\ (env_missing penv "REDIS_HOST" = false ->
      env_missing penv "S3_BUCKET_NAME" = false ->
      env_missing penv "AWS_REGION" = true ->
     appConfig parseInt penv = Throw (missing_variable "AWS_REGION"))
  /\ ((exists config, appConfig parseInt penv = Ok config) <->
      forall key, In key required -> exists v, penv !! key = Some v /\ v <> "").
Proof.
  unfold appConfig. rewrite check_required_first_missing. unfold required. cbn [List.find].
  split; [| split; [| split]].
  - intros ->. reflexivity.
  - intros -> ->. reflexivity.
  - intros -> -> ->. reflexivity.
  - split.
    + intros [config H] key Hin. apply env_missing_false.
      destruct (env_missing penv "REDIS_HOST") eqn:H1; [discriminate H |].
      destruct (env_missing penv "S3_BUCKET_NAME") eqn:H2; [discriminate H |].
      destruct (env_missing penv "AWS_REGION") eqn:H3; [discriminate H |].
      destruct Hin as [<- | [<- | [<- | []]]]; assumption.
    + intros Hall.
      assert (forall key, In key ["REDIS_HOST"; "S3_BUCKET_NAME"; "AWS_REGION"] ->
                env_missing penv key = false) as Hset
        by (intros key Hin; apply env_missing_false, Hall, Hin).
      rewrite !Hset by (cbn; tauto). eexists. reflexivity.
Qed.

Lemma appConfig_required_variables_witness :
  appConfig parseInt_sample (delete "S3_BUCKET_NAME" penv_required)
    = Throw (missing_variable "S3_BUCKET_NAME")
  /\ appConfig parseInt_sample (<["AWS_REGION" := ""]> penv_required)
    = Throw (missing_variable "AWS_REGION")
  /\ exists config, appConfig parseInt_sample penv_required = Ok config.
Proof.
  split; [| split].
  - apply (appConfig_required_variables parseInt_sample (delete "S3_BUCKET_NAME" penv_required));
      reflexivity.
  - apply (appConfig_required_variables parseInt_sample (<["AWS_REGION" := ""]> penv_required));
      reflexivity.
  - apply (appConfig_required_variables parseInt_sample penv_required).
    intros key [<- | [<- | [<- | []]]]; eexists; (split; [reflexivity | discriminate]).
Defined.

(** X2. A loaded configuration holds the values of the three required
    variables as they are in the environment, and none of them is empty:
    the fallbacks "localhost", "trino-doc-worker-bucket" and "us-east-1" are
    never used. *)
Theorem appConfig_required_values parseInt (penv : gmap string string) config :
  appConfig parseInt penv = Ok config ->
  (penv !! "REDIS_HOST" = Some (redisHost config) /\ redisHost config <> "")
  /\ (penv !! "S3_BUCKET_NAME" = Some (s3BucketName config) /\ s3BucketName config <> "")
  /\ (penv !! "AWS_REGION" = Some (awsRegion config) /\ awsRegion config <> "").
Proof.
  intros Hload.
  destruct (appConfig_loaded parseInt penv config Hload) as [Hall ->]. cbn.
  destruct (Hall "REDIS_HOST") as (h & Hh & Hhne); [cbn; tauto |].
  destruct (Hall "S3_BUCKET_NAME") as (b & Hb & Hbne); [cbn; tauto |].
  destruct (Hall "AWS_REGION") as (r & Hr & Hrne); [cbn; tauto |].
  rewrite Hh, Hb, Hr. cbn. repeat split; assumption.
Qed.

Lemma appConfig_required_values_witness :
  (penv_required !! "REDIS_HOST" = Some (redisHost config_loaded)
   /\ redisHost config_loaded <> "")
  /\ (penv_required !! "S3_BUCKET_NAME" = Some (s3BucketName config_loaded)
      /\ s3BucketName config_loaded <> "")
  /\ (penv_required !! "AWS_REGION" = Some (awsRegion config_loaded)
      /\ awsRegion config_loaded <> "").
Proof.
  apply (appConfig_required_values parseInt_sample penv_required config_loaded).
  reflexivity.
Defined.

Lemma or_undefined_Some value p :
  or_undefined value = Some p <-> value = Some p /\ p <> "".
Proof.
  unfold or_undefined. destruct value as [s |].
  - destruct (String.eqb s "") eqn:E.
    + apply String.eqb_eq in E. subst s. split; [discriminate |].
      intros [H Hne]. injection H as <-. contradiction.
    + apply String.eqb_neq in E. split.
      * intros H. injection H as <-. split; [reflexivity | exact E].
      * intros [H _]. exact H.
  - split; [discriminate |]. intros [H _]. discriminate H.
Qed.

(** X3. The optional settings of a loaded configuration: TLS is on exactly
    when REDIS_TLS is the string "true"; the password is the value of
    REDIS_PASSWORD when that is non-empty and undefined otherwise; the port
    is parsed from REDIS_PORT, or from "6379" when it is unset; the queue
    name and the node environment keep whatever value is set, the empty
    string included, and take their defaults only when unset. *)
Theorem appConfig_optional_settings parseInt (penv : gmap string string) config :
  appConfig parseInt penv = Ok config ->
  (redisTls config = true <-> penv !! "REDIS_TLS" = Some "true")
  /\ (forall p, redisPassword config = Some p <->
                penv !! "REDIS_PASSWORD" = Some p /\ p <> "")
  /\ redisPort config = parseInt (match penv !! "REDIS_PORT" with
                                  | Some s => s
                                  | None => "6379"
                                  end) 10
  /\ (forall q, penv !! "PDF_GENERATION_QUEUE" = Some q -> pdfGenerationQueue config = q)
  /\ (penv !! "PDF_GENERATION_QUEUE" = None -> pdfGenerationQueue config = "pdf-generation")
  /\ (forall n, penv !! "NODE_ENV" = Some n -> nodeEnv config = n)
  /\ (penv !! "NODE_ENV" = None -> nodeEnv config = "production").
Proof.
  intros Hload.
  destruct (appConfig_loaded parseInt penv config Hload) as [_ ->].
  cbn [redisTls redisPassword redisPort pdfGenerationQueue nodeEnv].
  split; [| split; [| split; [| split; [| split; [| split]]]]].
  - destruct (penv !! "REDIS_TLS") as [s |]; [| split; discriminate].
    split.
    + intros H. apply String.eqb_eq in H. subst s. reflexivity.
    + intros H. injection H as ->. reflexivity.
  - intros p. apply or_undefined_Some.
  - reflexivity.
  - intros q ->. reflexivity.
  - intros ->. reflexivity.
  - intros n ->. reflexivity.
  - intros ->. reflexivity.
Qed.

Lemma appConfig_optional_settings_witness :
  (redisTls config_loaded = true <-> penv_required !! "REDIS_TLS" = Some "true")
  /\ pdfGenerationQueue config_loaded = "pdf-generation".
Proof.
  destruct (appConfig_optional_settings parseInt_sample penv_required config_loaded)
    as (Htls & _ & _ & _ & Hqueue & _); [reflexivity |].
  split; [exact Htls | apply Hqueue; reflexivity].
Defined.

(** X4. [appConfig] reads nine variables and nothing else: setting or
    removing any other variable leaves its result unchanged. *)
Theorem appConfig_reads_only_its_variables parseInt (penv : gmap string string) key :
  ~ In key config_variables ->
  (forall v, appConfig parseInt (<[key := v]> penv) = appConfig parseInt penv)
  /\ appConfig parseInt (delete key penv) = appConfig parseInt penv.
Proof.
  intros Hother.
  assert (forall k, In k config_variables -> key <> k) as Hne
    by (intros k Hin ->; exact (Hother Hin)).
  assert (~ In key required) as Hreq.
  { intros Hin. apply Hother. unfold required, config_variables in *. cbn in *.
    intuition. }
  split.
  - intros v. unfold appConfig. rewrite check_required_insert_other by exact Hreq.
    rewrite !lookup_insert_ne by (apply Hne; unfold config_variables; cbn; tauto).
    reflexivity.
  - unfold appConfig. rewrite check_required_delete_other by exact Hreq.
    rewrite !lookup_delete_ne by (apply Hne; unfold config_variables; cbn; tauto).
    reflexivity.
Qed.

Lemma appConfig_reads_only_its_variables_witness :
  appConfig parseInt_sample (<["HOME" := "/root"]> penv_required)
  = appConfig parseInt_sample penv_required.
Proof.
  apply (appConfig_reads_only_its_variables parseInt_sample penv_required "HOME").
  unfold config_variables. cbn. intros H.
  repeat (destruct H as [H | H]; [discriminate H |]). exact H.
Defined.

(** ** Wiring *)



(** X6. The queue is registered under the value of PDF_GENERATION_QUEUE when
    that variable is set, and under "pdf-generation" otherwise, while the
    processor is always bound to "pdf-generation": the two names agree
    exactly when the variable is unset or is "pdf-generation". *)
Theorem queue_name_from_environment parseInt (penv : gmap string string) config :
  appConfig parseInt penv = Ok config ->
  let q := PdfGenerationModule.useFactory config in
  PdfGenerationModule.name q = (penv !! "PDF_GENERATION_QUEUE") ?? "pdf-generation"
  /\ (PdfGenerationModule.name q = PdfGenerationModule.processor_queue <->
      penv !! "PDF_GENERATION_QUEUE" = None
      \/ penv !! "PDF_GENERATION_QUEUE" = Some "pdf-generation").
Proof.
  intros Hload.
  destruct (appConfig_loaded parseInt penv config Hload) as [_ ->]. cbn.
  split; [reflexivity |].
  unfold PdfGenerationModule.processor_queue.
  destruct (penv !! "PDF_GENERATION_QUEUE") as [s |]; cbn.
  - split.
    + intros ->. right. reflexivity.
    + intros [H | H]; [discriminate H | injection H as ->; reflexivity].
  - split; [intros _; left; reflexivity | reflexivity].
Qed.

Lemma queue_name_from_environment_witness :
  PdfGenerationModule.name (PdfGenerationModule.useFactory config_loaded)
  = PdfGenerationModule.processor_queue.
Proof.
  apply (queue_name_from_environment parseInt_sample penv_required config_loaded);
    [reflexivity |].
  left. reflexivity.
Defined.

(** ** Rendering: failures before the export *)

(** X7. When the executable cannot be resolved (no local path, and
    [chromium.executablePath()] rejects), either render call rejects with
    that error, launches nothing, and leaves the graphics flag as it was. *)
Theorem resolution_failure_stops_render env config html g err :
  localChromiumPath config = None \/ localChromiumPath config = Some "" ->
  chromium_executablePath env = Throw err ->
  (forall options,
     PuppeteerService.generatePdf env config html options g
     = MkRun (Throw err) g [EvChromiumExecutablePath])
  /\ (forall options,
     PuppeteerService.generateImage env config html options g
     = MkRun (Throw err) g [EvChromiumExecutablePath]).
Proof.
  intros Hpath Hlookup.
  split; intros options;
    unfold PuppeteerService.generatePdf, PuppeteerService.generateImage, bind;
    rewrite (getExecutablePath_fallback env config g Hpath), Hlookup; reflexivity.
Qed.

Lemma resolution_failure_stops_render_witness :
  PuppeteerService.generatePdf env_resolution_fails (config_of None) "<html></html>" None g0
  = MkRun (Throw binary_missing) g0 [EvChromiumExecutablePath].
Proof.
  apply (resolution_failure_stops_render env_resolution_fails (config_of None)
           "<html></html>" g0 binary_missing).
  - left. reflexivity.
  - reflexivity.
Defined.

(** X8. When the launch rejects, either render call rejects with the error
    of the launch; no page is opened and [browser.close()] is not called. *)
Theorem launch_failure_skips_close env config html g :
  (forall options lo err,
     let r := PuppeteerService.generatePdf env config html options g in
     In (EvLaunch lo) (events r) -> puppeteer_launch env lo = Throw err ->
     outcome r = Throw err
     /\ count_events is_close (events r) = 0%nat
     /\ count_events is_page_call (events r) = 0%nat)
  /\ (forall options lo err,
     let r := PuppeteerService.generateImage env config html options g in
     In (EvLaunch lo) (events r) -> puppeteer_launch env lo = Throw err ->
     outcome r = Throw err
     /\ count_events is_close (events r) = 0%nat
     /\ count_events is_page_call (events r) = 0%nat).
Proof.
  split; intros options lo err; cbv zeta; intros Hlaunch Hfail.
  - run_puppeteer; use_event Hlaunch; try congruence.
    all: repeat split; congruence.
  - run_puppeteer; use_event Hlaunch; try congruence.
    all: repeat split; congruence.
Qed.

Lemma launch_failure_skips_close_witness :
  outcome (PuppeteerService.generatePdf env_launch_fails (config_of None)
             "<html></html>" None g0) = Throw launch_failed
  /\ count_events is_close
       (events (PuppeteerService.generatePdf env_launch_fails (config_of None)
                  "<html></html>" None g0)) = 0%nat.
Proof.
  destruct (launch_failure_skips_close env_launch_fails (config_of None) "<html></html>" g0)
    as [Hpdf _].
  destruct (Hpdf None launch_pdf_default launch_failed) as (Hout & Hclose & _).
  - cbn. do 2 right. left. reflexivity.
  - reflexivity.
  - split; assumption.
Defined.

(** X9. When loading the content rejects, nothing is probed, exported or
    captured; the browser is still closed once, and the caller sees the
    load error (or the error of the close, when that fails too). *)
Theorem load_failure_skips_export env config html g :
  (forall options h w err,
     let r := PuppeteerService.generatePdf env config html options g in
     In (EvSetContent h w) (events r) -> page_setContent env h w = Throw err ->
     count_events is_after_load (events r) = 0%nat
     /\ count_events is_close (events r) = 1%nat
     /\ outcome r = propagated_after_close env err)
  /\ (forall options h w err,
     let r := PuppeteerService.generateImage env config html options g in
     In (EvSetContent h w) (events r) -> page_setContent env h w = Throw err ->
     count_events is_after_load (events r) = 0%nat
     /\ count_events is_close (events r) = 1%nat
     /\ outcome r = propagated_after_close env err).
Proof.
  unfold propagated_after_close.
  split; intros options h w err; cbv zeta; intros Hload Hfail.
  - run_puppeteer; use_event Hload; try congruence.
    all: repeat split; congruence.
  - run_puppeteer; use_event Hload; try congruence.
    all: repeat split; congruence.
Qed.

Lemma load_failure_skips_export_witness :
  count_events is_after_load
    (events (PuppeteerService.generateImage env_load_fails (config_of None)
               "<html></html>" None g0)) = 0%nat
  /\ outcome (PuppeteerService.generateImage env_load_fails (config_of None)
                "<html></html>" None g0) = Throw navigation_timeout.
Proof.
  destruct (load_failure_skips_export env_load_fails (config_of None) "<html></html>" g0)
    as [_ Himage].
  destruct (Himage None "<html></html>" [PageLoad; NetworkIdle2] navigation_timeout)
    as (Hnone & _ & Hout).
  - cbn. do 4 right. left. reflexivity.
  - reflexivity.
  - split; [exact Hnone | exact Hout].
Defined.

(** X10. When the content-size probe rejects, [generateImage] takes no
    screenshot, not even of the full page: it closes the browser and
    rejects with the error of the probe (or of the close). *)
Theorem probe_failure_skips_capture env config html options g err :
  let r := PuppeteerService.generateImage env config html options g in
  In EvEvaluate (events r) -> page_evaluate env = Throw err ->
  screenshot_requests (events r) = []
  /\ count_events is_close (events r) = 1%nat
  /\ outcome r = propagated_after_close env err.
Proof.
  unfold propagated_after_close. cbv zeta. intros Hprobe Hfail.
  run_puppeteer; use_event Hprobe; try congruence.
  all: repeat split; congruence.
Qed.

Lemma probe_failure_skips_capture_witness :
  screenshot_requests
    (events (PuppeteerService.generateImage env_probe_fails (config_of None)
               "<html></html>" None g0)) = []
  /\ outcome (PuppeteerService.generateImage env_probe_fails (config_of None)
                "<html></html>" None g0) = Throw probe_failed.
Proof.
  destruct (probe_failure_skips_capture env_probe_fails (config_of None) "<html></html>"
              None g0 probe_failed) as (Hnone & _ & Hout).
  - cbn. do 5 right. left. reflexivity.
  - reflexivity.
  - split; [exact Hnone | exact Hout].
Defined.

(** ** Rendering: what a call does and returns *)

(** X11. A render call that returns gives back exactly the bytes its one
    export (or capture) resolved with, and it returns only when the close
    resolved as well. *)
Theorem render_returns_exported_bytes env config html g :
  (forall options buffer,
     let r := PuppeteerService.generatePdf env config html options g in
     outcome r = Ok buffer ->
     exists po,
       pdf_requests (events r) = [po]
       /\ page_pdf env po = Ok buffer
       /\ browser_close env = Ok tt)
  /\ (forall options buffer,
     let r := PuppeteerService.generateImage env config html options g in
     outcome r = Ok buffer ->
     exists so,
       screenshot_requests (events r) = [so]
       /\ page_screenshot env so = Ok buffer
       /\ browser_close env = Ok tt).
Proof.
  split; intros options buffer; cbv zeta; intros Hok.
  - run_puppeteer; try discriminate Hok.
    all: injection Hok as <-; eexists; split; [reflexivity |].
    all: split; [assumption |]; repeat match goal with u : unit |- _ => destruct u end.
    all: reflexivity.
  - run_puppeteer; try discriminate Hok.
    all: injection Hok as <-; eexists; split; [reflexivity |].
    all: split; [assumption |]; repeat match goal with u : unit |- _ => destruct u end.
    all: reflexivity.
Qed.

Lemma render_returns_exported_bytes_witness :
  exists po,
    pdf_requests (events (PuppeteerService.generatePdf env_ok (config_of None)
                            "<html></html>" None g0)) = [po]
    /\ page_pdf env_ok po = Ok pdf_bytes
    /\ browser_close env_ok = Ok tt.
Proof.
  apply (proj1 (render_returns_exported_bytes env_ok (config_of None) "<html></html>" g0)
           None pdf_bytes).
  reflexivity.
Defined.

(** X12. The content is loaded at most once per call, always the caller's
    HTML unchanged: by [generatePdf] waiting for "networkidle0", by
    [generateImage] waiting for "load" and "networkidle2". *)
Theorem content_loaded_as_given env config html g :
  (forall options,
     let loads := content_loads (events (PuppeteerService.generatePdf env config html options g)) in
     loads = [] \/ loads = [(html, [NetworkIdle0])])
  /\ (forall options,
     let loads := content_loads (events (PuppeteerService.generateImage env config html options g)) in
     loads = [] \/ loads = [(html, [PageLoad; NetworkIdle2])]).
Proof.
  split; intros options; cbv zeta.
  - run_puppeteer; first [left; reflexivity | right; reflexivity].
  - run_puppeteer; first [left; reflexivity | right; reflexivity].
Qed.

(** X13. Every launch is headless and takes the chromium arguments of the
    graphics-off mode, whatever the graphics flag was before the call; after
    a call that got as far as launching, the flag is off. *)
Theorem graphics_mode_forced_off env config html g :
  (forall options lo,
     let r := PuppeteerService.generatePdf env config html options g in
     In (EvLaunch lo) (events r) ->
     args lo = puppeteer_defaultArgs env (chromium_args env false) true
     /\ headless lo = true
     /\ defaultViewport lo = None
     /\ graphicsMode (globals r) = false)
  /\ (forall options lo,
     let r := PuppeteerService.generateImage env config html options g in
     In (EvLaunch lo) (events r) ->
     args lo = puppeteer_defaultArgs env (chromium_args env false) true
     /\ headless lo = true
     /\ graphicsMode (globals r) = false).
Proof.
  split; intros options lo; cbv zeta; intros Hlaunch.
  - run_puppeteer; use_event Hlaunch; repeat split; reflexivity.
  - run_puppeteer; use_event Hlaunch; repeat split; reflexivity.
Qed.

Lemma graphics_mode_forced_off_witness :
  args launch_pdf_default = puppeteer_defaultArgs env_ok (chromium_args env_ok false) true
  /\ headless launch_pdf_default = true
  /\ defaultViewport launch_pdf_default = None
  /\ graphicsMode (globals (PuppeteerService.generatePdf env_ok (config_of None)
                              "<html></html>" None g0)) = false.
Proof.
  apply (proj1 (graphics_mode_forced_off env_ok (config_of None) "<html></html>" g0)
           None launch_pdf_default).
  cbn. do 2 right. left. reflexivity.
Defined.

(** X14. One browser per call: a render call launches at most once, closes
    at most once and never without a launch, and exports or captures at
    most once. *)
Theorem one_browser_per_call env config html g :
  (forall options,
     let evs := events (PuppeteerService.generatePdf env config html options g) in
     (count_events is_launch evs <= 1)%nat
     /\ (count_events is_close evs <= count_events is_launch evs)%nat
     /\ (length (pdf_requests evs) <= count_events is_close evs)%nat
     /\ screenshot_requests evs = [])
  /\ (forall options,
     let evs := events (PuppeteerService.generateImage env config html options g) in
     (count_events is_launch evs <= 1)%nat
     /\ (count_events is_close evs <= count_events is_launch evs)%nat
     /\ (length (screenshot_requests evs) <= count_events is_close evs)%nat
     /\ pdf_requests evs = []).
Proof.
  split; intros options; cbv zeta.
  - run_puppeteer; cbn; repeat split; lia.
  - run_puppeteer; cbn; repeat split; lia.
Qed.

(** X15. The capture request always says whether to omit the background:
    the caller's choice, or [false]. *)
Theorem capture_background env config html options g so :
  In so (screenshot_requests
           (events (PuppeteerService.generateImage env config html options g))) ->
  omitBackground so = Some (options ?. img_omitBackground ?? false).
Proof.
  intros Hin. run_puppeteer; cbn in Hin; try contradiction.
  all: destruct Hin as [<- | []]; reflexivity.
Qed.

Lemma capture_background_witness :
  omitBackground screenshot_png_autofit = Some false.
Proof.
  apply (capture_background env_ok (config_of None) "<html></html>" None g0).
  cbn. left. reflexivity.
Defined.

(** ** Upload *)

(** The whole run of [upload], by how the send settles. *)
Lemma upload_run_shape env this key buffer documentType g :
  S3Service.upload env this key buffer documentType g =
  match s3_send env (put_command this key buffer documentType) with
  | Ok _ =>
      MkRun (Ok (object_url this key)) g
        [uploading_log this key buffer documentType;
         EvS3Send (put_command this key buffer documentType);
         upload_successful_log this key]
  | Throw err =>
      MkRun (Throw err) g
        [uploading_log this key buffer documentType;
         EvS3Send (put_command this key buffer documentType)]
  end.
Proof.
  unfold S3Service.upload, put_command, content_type_of, object_url,
    uploading_log, upload_successful_log.
  unfold_monad. cbn.
  destruct (s3_send env _); reflexivity.
Qed.

(** X16. [upload] writes its first record, then sends a command that
    carries the bucket of the service and the key and bytes it was given.
    When the send rejects, [upload] rejects with the same error and writes
    no success record; when it resolves, the success record follows. *)
Theorem upload_records_by_send env this key buffer documentType g :
  let r := S3Service.upload env this key buffer documentType g in
  let command := {| Bucket := S3Service.bucket this;
                    Key := key;
                    Body := buffer;
                    ContentType := content_type_of documentType |} in
  (forall err, s3_send env command = Throw err ->
     outcome r = Throw err
     /\ events r = [uploading_log this key buffer documentType; EvS3Send command])
  /\ (s3_send env command = Ok tt ->
      events r = [uploading_log this key buffer documentType; EvS3Send command;
                  upload_successful_log this key]).
Proof.
  cbv zeta. rewrite upload_run_shape. unfold put_command.
  split.
  - intros err ->. split; reflexivity.
  - intros ->. reflexivity.
Qed.

Lemma upload_records_by_send_witness :
  outcome (S3Service.upload env_upload_fails s3_test "docs/a.pdf" pdf_bytes Pdf g0)
    = Throw access_denied
  /\ events (S3Service.upload env_upload_fails s3_test "docs/a.pdf" pdf_bytes Pdf g0)
    = [uploading_log s3_test "docs/a.pdf" pdf_bytes Pdf;
       EvS3Send (put_command s3_test "docs/a.pdf" pdf_bytes Pdf)].
Proof.
  apply (proj1 (upload_records_by_send env_upload_fails s3_test "docs/a.pdf" pdf_bytes Pdf g0)
           access_denied).
  reflexivity.
Defined.

Lemma append_inj_prefix (prefix a b : string) :
  prefix +:+ a = prefix +:+ b -> a = b.
Proof.
  induction prefix as [| c prefix IH]; cbn; intros H; [exact H |].
  injection H as H. apply IH, H.
Qed.

(** X17. The URL tells the key: two uploads through the same service that
    return the same URL were given the same key. *)
Theorem upload_url_determines_key env this g1 g2 key1 key2 buffer1 buffer2 type1 type2 url :
  outcome (S3Service.upload env this key1 buffer1 type1 g1) = Ok url ->
  outcome (S3Service.upload env this key2 buffer2 type2 g2) = Ok url ->
  key1 = key2.
Proof.
  rewrite !upload_run_shape.
  destruct (s3_send env (put_command this key1 buffer1 type1)); [| discriminate].
  destruct (s3_send env (put_command this key2 buffer2 type2)); [| discriminate].
  cbn. intros H1 H2. injection H1 as <-. injection H2 as H2.
  unfold object_url in H2.
  do 3 apply append_inj_prefix in H2. symmetry. exact H2.
Qed.

Lemma upload_url_determines_key_witness :
  outcome (S3Service.upload env_ok s3_test "docs/a.pdf" png_bytes Image g0)
    = Ok (object_url s3_test "docs/a.pdf")
  /\ "docs/a.pdf" = "docs/a.pdf".
Proof.
  split; [reflexivity |].
  apply (upload_url_determines_key env_ok s3_test g0 g0 "docs/a.pdf" "docs/a.pdf"
           pdf_bytes png_bytes Pdf Image (object_url s3_test "docs/a.pdf"));
    reflexivity.
Defined.

(** ** The pipeline, end to end *)

(** What the render step records: browser calls and service logs only, and
    only the calls of the method the document type selects. *)
Lemma render_step_calls env config job g :
  let evs := events (render_step env config job g) in
  count_events is_error_log evs = 0%nat
  /\ match documentType (data job) with
     | Pdf => count_events is_image_call evs = 0%nat
     | Image => count_events is_pdf_call evs = 0%nat
     end.
Proof.
  cbv zeta. unfold render_step. destruct (documentType (data job)).
  - run_puppeteer; split; reflexivity.
  - run_puppeteer; split; reflexivity.
Qed.

(** The render step does not depend on the graphics flag it starts with. *)
Lemma render_step_flag env config job g g' :
  outcome (render_step env config job g) = outcome (render_step env config job g')
  /\ events (render_step env config job g) = events (render_step env config job g').
Proof.
  unfold render_step.
  destruct (documentType (data job));
    unfold PuppeteerService.generatePdf, PuppeteerService.generateImage; unfold_monad;
    (destruct (localChromiumPath_cases config) as [Hpath | (path & Hpath & Hne)];
     [ rewrite (getExecutablePath_fallback env config g Hpath),
               (getExecutablePath_fallback env config g' Hpath)
     | rewrite (getExecutablePath_local env config g path Hpath Hne),
               (getExecutablePath_local env config g' path Hpath Hne) ]);
    cbn; repeat (case_any; cbn); split; reflexivity.
Qed.

(** X18. The result of a job that went through: [url] is
    [https://{bucket}.s3.amazonaws.com/{s3Key}], [userId] is the job's,
    [completedAt] is the clock's ISO string, and apart from [metaData]
    there is no other key. *)
Theorem result_shape env config s3Service job g (result : gmap string JsVal) :
  outcome (PdfGenerationProcessor.process env config s3Service job g) = Ok result ->
  result !! "url" = Some (JStr (object_url s3Service (s3Key (data job))))
  /\ result !! "userId" = Some (JStr (userId (data job)))
  /\ result !! "completedAt" = Some (JStr (date_toISOString env))
  /\ forall key, key <> "url" -> key <> "userId" -> key <> "completedAt" ->
       key <> "metaData" -> result !! key = None.
Proof.
  intros Hok. rewrite process_steps in Hok.
  destruct (render_step env config job g) as [[buffer | failure] g1 rendering];
    [| discriminate Hok].
  unfold upload_step in Hok. rewrite upload_run_shape in Hok.
  destruct (s3_send env _); [| discriminate Hok].
  injection Hok as <-.
  unfold job_result, obj_spread, spread_if.
  destruct (is_defined (metaData (data job))).
  - rewrite !lookup_union_r by (apply lookup_singleton_ne; discriminate).
    rewrite lookup_insert_eq, lookup_insert_ne, lookup_insert_eq by discriminate.
    rewrite !lookup_insert_ne, lookup_singleton_eq by discriminate.
    repeat split. intros key H1 H2 H3 H4.
    rewrite lookup_union_r by (apply lookup_singleton_ne; congruence).
    rewrite !lookup_insert_ne by congruence. apply lookup_singleton_ne. congruence.
  - rewrite (left_id_L ∅ (∪)).
    rewrite lookup_insert_eq, lookup_insert_ne, lookup_insert_eq by discriminate.
    rewrite !lookup_insert_ne, lookup_singleton_eq by discriminate.
    repeat split. intros key H1 H2 H3 H4.
    rewrite !lookup_insert_ne by congruence. apply lookup_singleton_ne. congruence.
Qed.

Lemma result_shape_witness :
  job_result env_ok job_pdf (object_url s3_test (s3Key (data job_pdf))) !! "url"
  = Some (JStr "https://test-bucket.s3.amazonaws.com/docs/user-abc/file.pdf").
Proof.
  apply (result_shape env_ok (config_of None) s3_test job_pdf g0). reflexivity.
Defined.

(** X19. What [process] sends to the blob store: nothing when the render
    step throws, and otherwise one command with the bucket of the service,
    the job's [s3Key], the content type of the job's document type, and as
    body exactly the bytes the render step returned. *)
Theorem uploaded_bytes_are_rendered_bytes env config s3Service job g :
  s3_commands (events (PdfGenerationProcessor.process env config s3Service job g)) =
  match outcome (render_step env config job g) with
  | Ok buffer =>
      [{| Bucket := S3Service.bucket s3Service;
          Key := s3Key (data job);
          Body := buffer;
          ContentType := content_type_of (documentType (data job)) |}]
  | Throw _ => []
  end.
Proof.
  rewrite process_steps.
  pose proof (render_step_events env config job g) as (_ & _ & Hrender).
  destruct (render_step env config job g) as [[buffer | failure] g1 rendering];
    cbn [outcome events] in *.
  - unfold upload_step. rewrite upload_run_shape.
    destruct (s3_send env _); cbn [events];
      rewrite events_by_step, !s3_commands_app, Hrender; reflexivity.
  - change (started_log job :: rendering ++ [failure_log job failure])
      with ([started_log job] ++ rendering ++ [failure_log job failure]).
    rewrite !s3_commands_app, Hrender. reflexivity.
Qed.

(** X20. [logger.error] is called once by a job that fails, at the render
    step or at the upload, and never by a job that goes through. *)
Theorem one_error_record_per_failure env config s3Service job g :
  let p := PdfGenerationProcessor.process env config s3Service job g in
  count_events is_error_log (events p) =
    match outcome p with
    | Ok _ => 0%nat
    | Throw _ => 1%nat
    end.
Proof.
  cbv zeta. rewrite process_steps.
  pose proof (render_step_calls env config job g) as [Hrender _]. cbv zeta in Hrender.
  destruct (render_step env config job g) as [[buffer | failure] g1 rendering];
    cbn [outcome events] in *.
  - unfold upload_step. rewrite upload_run_shape.
    destruct (s3_send env _); cbn [outcome events];
      rewrite events_by_step, !count_events_app, Hrender; reflexivity.
  - change (started_log job :: rendering ++ [failure_log job failure])
      with ([started_log job] ++ rendering ++ [failure_log job failure]).
    rewrite !count_events_app, Hrender. reflexivity.
Qed.

(** X21. Dispatch: a PDF job never probes the content size and never takes
    a screenshot; an image job never exports a PDF. *)
Theorem dispatch_by_document_type env config s3Service job g :
  let evs := events (PdfGenerationProcessor.process env config s3Service job g) in
  (documentType (data job) = Pdf -> count_events is_image_call evs = 0%nat)
  /\ (documentType (data job) = Image -> count_events is_pdf_call evs = 0%nat).
Proof.
  cbv zeta. rewrite process_steps.
  pose proof (render_step_calls env config job g) as [_ Hrender]. cbv zeta in Hrender.
  destruct (render_step env config job g) as [[buffer | failure] g1 rendering];
    cbn [events] in *.
  - unfold upload_step. rewrite upload_run_shape.
    destruct (s3_send env _); cbn [events]; rewrite events_by_step;
      (split; intros Hdt; rewrite Hdt in Hrender;
       rewrite !count_events_app, Hrender; reflexivity).
  - change (started_log job :: rendering ++ [failure_log job failure])
      with ([started_log job] ++ rendering ++ [failure_log job failure]).
    split; intros Hdt; rewrite Hdt in Hrender;
      rewrite !count_events_app, Hrender; reflexivity.
Qed.

Lemma dispatch_by_document_type_witness :
  count_events is_image_call
    (events (PdfGenerationProcessor.process env_ok (config_of None) s3_test job_pdf g0)) = 0%nat
  /\ count_events is_pdf_call
    (events (PdfGenerationProcessor.process env_ok (config_of None) s3_test job_image g0)) = 0%nat.
Proof.
  split.
  - apply (proj1 (dispatch_by_document_type env_ok (config_of None) s3_test job_pdf g0)).
    reflexivity.
  - apply (proj2 (dispatch_by_document_type env_ok (config_of None) s3_test job_image g0)).
    reflexivity.
Defined.

(** X22. Rendering is over before the upload starts: the record of a job
    splits in two parts, the first without any upload event and the second
    without any call on the browser or its page, close included. *)
Theorem browser_work_precedes_upload env config s3Service job g :
  exists before after,
    events (PdfGenerationProcessor.process env config s3Service job g) = before ++ after
    /\ count_events is_upload before = 0%nat
    /\ count_events is_browser_call after = 0%nat.
Proof.
  rewrite process_steps.
  pose proof (render_step_events env config job g) as (Hrender & _ & _).
  destruct (render_step env config job g) as [[buffer | failure] g1 rendering];
    cbn [events] in *.
  - exists ([started_log job] ++ rendering ++ [generated_log job buffer]).
    unfold upload_step. rewrite upload_run_shape.
    destruct (s3_send env _); cbn [events]; eexists;
      (split; [rewrite events_by_step, <- !app_assoc; reflexivity |]);
      rewrite !count_events_app, Hrender; split; reflexivity.
  - exists ([started_log job] ++ rendering ++ [failure_log job failure]), [].
    rewrite app_nil_r. split; [reflexivity |].
    rewrite !count_events_app, Hrender. split; reflexivity.
Qed.

(** X23. A job does not depend on the graphics flag left by earlier jobs:
    started with the flag on or off, [process] makes the same calls with the
    same arguments and ends the same way. *)
Theorem process_ignores_graphics_flag env config s3Service job g g' :
  outcome (PdfGenerationProcessor.process env config s3Service job g)
  = outcome (PdfGenerationProcessor.process env config s3Service job g')
  /\ events (PdfGenerationProcessor.process env config s3Service job g)
  = events (PdfGenerationProcessor.process env config s3Service job g').
Proof.
  rewrite !process_steps.
  pose proof (render_step_flag env config job g g') as [Hout Hevs].
  destruct (render_step env config job g) as [[buffer | failure] g1 rendering];
    destruct (render_step env config job g') as [[buffer' | failure'] g1' rendering'];
    cbn [outcome events] in Hout, Hevs; try discriminate Hout;
    injection Hout as <-; subst rendering'.
  - unfold upload_step. rewrite !upload_run_shape.
    destruct (s3_send env _); split; reflexivity.
  - split; reflexivity.
Qed.

(** ** The environment helper of the configuration tests *)

Lemma foldl_set_other (l : list (string * string)) (e : gmap string string) k :
  k ∉ l.*1 ->
  foldl (fun denv entry => <[entry.1 := entry.2]> denv) e l !! k = e !! k.
Proof.
  revert e. induction l as [| [k' v] l IH]; intros e Hk; [reflexivity |].
  cbn in *. apply not_elem_of_cons in Hk as [Hne Hk].
  rewrite IH by exact Hk. apply lookup_insert_ne. congruence.
Qed.

Lemma foldl_delete_other (l : list string) (e : gmap string string) k :
  k ∉ l -> foldl (fun denv key => delete key denv) e l !! k = e !! k.
Proof.
  revert e. induction l as [| k' l IH]; intros e Hk; [reflexivity |].
  cbn. apply not_elem_of_cons in Hk as [Hne Hk].
  rewrite IH by exact Hk. apply lookup_delete_ne. congruence.
Qed.

Lemma restore_fold_other (l : list (string * option string)) (e : gmap string string) k :
  k ∉ l.*1 ->
  foldl (fun denv entry =>
           match entry.2 with
           | None => delete entry.1 denv
           | Some v => <[entry.1 := v]> denv
           end) e l !! k = e !! k.
Proof.
  revert e. induction l as [| [k' v] l IH]; intros e Hk; [reflexivity |].
  cbn in *. apply not_elem_of_cons in Hk as [Hne Hk].
  rewrite IH by exact Hk.
  destruct v; [apply lookup_insert_ne | apply lookup_delete_ne]; congruence.
Qed.

Lemma restore_fold_entry (l : list (string * option string)) (e : gmap string string) k v :
  NoDup l.*1 -> (k, v) ∈ l ->
  foldl (fun denv entry =>
           match entry.2 with
           | None => delete entry.1 denv
           | Some v => <[entry.1 := v]> denv
           end) e l !! k = v.
Proof.
  revert e. induction l as [| [k' v'] l IH]; intros e Hnd Hin.
  - apply elem_of_nil in Hin. contradiction.
  - cbn in *. apply NoDup_cons in Hnd as [Hfresh Hnd].
    apply elem_of_cons in Hin as [Heq | Hin].
    + injection Heq as <- <-. rewrite restore_fold_other by exact Hfresh.
      destruct v; [apply lookup_insert_eq | apply lookup_delete_eq].
    + apply IH; assumption.
Qed.

Lemma save_lookup keys (denv : gmap string string) k :
  ConfigSpec.save keys denv !! k = if decide (k ∈ keys) then Some (denv !! k) else None.
Proof.
  unfold ConfigSpec.save.
  assert (forall acc : gmap string (option string),
            foldl (fun saved key => <[key := denv !! key]> saved) acc keys !! k
            = if decide (k ∈ keys) then Some (denv !! k) else acc !! k) as H.
  { induction keys as [| key keys IH]; intros acc.
    - rewrite decide_False by apply not_elem_of_nil. reflexivity.
    - cbn. rewrite IH. destruct (decide (k ∈ keys)) as [Hin | Hnot].
      + rewrite decide_True by (right; exact Hin). reflexivity.
      + destruct (decide (k = key)) as [-> | Hne].
        * rewrite decide_True by left. apply lookup_insert_eq.
        * rewrite decide_False by (intros Hc; apply elem_of_cons in Hc as [|]; tauto).
          apply lookup_insert_ne. congruence. }
  rewrite H. destruct (decide (k ∈ keys)); [reflexivity | apply lookup_empty].
Qed.

(** Every key of [REQUIRED_ENV] and of [extra] ends up tracked: in [all] or
    in [toDelete]. *)
Lemma overrides_tracks extra k :
  is_Some (ConfigSpec.REQUIRED_ENV !! k) \/ k ∈ extra.*1 ->
  is_Some ((ConfigSpec.overrides extra).1 !! k) \/ k ∈ (ConfigSpec.overrides extra).2.
Proof.
  unfold ConfigSpec.overrides.
  set (step := fun (acc : gmap string string * list string)
                   (entry : string * option string) =>
                 match entry.2 with
                 | None => (delete entry.1 acc.1, acc.2 ++ [entry.1])
                 | Some v => (<[entry.1 := v]> acc.1, acc.2)
                 end).
  assert (forall acc,
            (is_Some (acc.1 !! k) \/ k ∈ acc.2) \/ k ∈ extra.*1 ->
            is_Some ((foldl step acc extra).1 !! k) \/ k ∈ (foldl step acc extra).2) as H.
  { induction extra as [| [k' v] extra IH]; intros acc Hk.
    - destruct Hk as [Hk | Hk]; [exact Hk |]. apply elem_of_nil in Hk. contradiction.
    - cbn [foldl]. apply IH. cbn [fmap list_fmap fst] in Hk.
      destruct (decide (k = k')) as [-> | Hne].
      + left. unfold step. cbn. destruct v as [v |]; cbn.
        * left. rewrite lookup_insert_eq. eexists. reflexivity.
        * right. apply elem_of_app. right. apply list_elem_of_singleton. reflexivity.
      + destruct Hk as [[Hk | Hk] | Hk].
        * left. left. unfold step. cbn. destruct v as [v |]; cbn.
          -- rewrite lookup_insert_ne by congruence. exact Hk.
          -- rewrite lookup_delete_ne by congruence. exact Hk.
        * left. right. unfold step. cbn. destruct v as [v |]; cbn; [exact Hk |].
          apply elem_of_app. left. exact Hk.
        * apply elem_of_cons in Hk as [Hk | Hk]; [contradiction |]. right. exact Hk. }
  intros Hk. apply H. destruct Hk as [Hk | Hk]; [left; left; exact Hk | right; exact Hk].
Qed.

(** X24. [withEnv] puts the environment back: when [fn] changes no variable
    other than those of [REQUIRED_ENV] and of [extra], the environment after
    [withEnv] is the one before it, whether [fn] returned or threw, and the
    outcome of [withEnv] is that of [fn]. *)
Theorem withEnv_restores_environment extra fn (denv : gmap string string) :
  (forall e k, ConfigSpec.REQUIRED_ENV !! k = None -> k ∉ extra.*1 ->
               (fn e).2 !! k = e !! k) ->
  (ConfigSpec.withEnv extra fn denv).2 = denv
  /\ (ConfigSpec.withEnv extra fn denv).1 = (fn (ConfigSpec.prepare extra denv)).1.
Proof.
  intros Hframe. split; [| reflexivity].
  unfold ConfigSpec.withEnv. cbn [snd]. apply map_eq. intros k.
  unfold ConfigSpec.restore, ConfigSpec.Object_entries.
  set (keys := remove_dups (ConfigSpec.Object_keys (ConfigSpec.overrides extra).1
                              ++ (ConfigSpec.overrides extra).2)).
  pose proof (save_lookup keys denv k) as Hsaved.
  destruct (decide (k ∈ keys)) as [Hin | Hnot].
  - apply restore_fold_entry; [apply NoDup_fst_map_to_list |].
    apply elem_of_map_to_list. exact Hsaved.
  - rewrite restore_fold_other.
    2: { intros Hc. apply list_elem_of_fmap in Hc as ([k' v] & -> & Hc).
         apply elem_of_map_to_list in Hc. cbn in Hc, Hsaved.
         rewrite Hsaved in Hc. discriminate Hc. }
    assert (~ is_Some ((ConfigSpec.overrides extra).1 !! k)
            /\ k ∉ (ConfigSpec.overrides extra).2) as [Hall Hdel].
    { split; intros Hc; apply Hnot; unfold keys; apply elem_of_remove_dups, elem_of_app.
      - left. unfold ConfigSpec.Object_keys. destruct Hc as [v Hv].
        apply list_elem_of_fmap. exists (k, v). split; [reflexivity |].
        apply elem_of_map_to_list. exact Hv.
      - right. exact Hc. }
    assert (ConfigSpec.prepare extra denv !! k = denv !! k) as Hprep.
    { unfold ConfigSpec.prepare, ConfigSpec.Object_entries. cbv zeta.
      rewrite foldl_delete_other by exact Hdel.
      apply foldl_set_other. intros Hc.
      apply list_elem_of_fmap in Hc as ([k' v] & -> & Hc).
      apply elem_of_map_to_list in Hc. apply Hall. eexists. exact Hc. }
    rewrite Hframe; [exact Hprep | |].
    + destruct (ConfigSpec.REQUIRED_ENV !! k) eqn:E; [| reflexivity].
      exfalso. destruct (overrides_tracks extra k) as [Hc | Hc]; [| tauto | tauto].
      left. rewrite E. eexists. reflexivity.
    + intros Hc. destruct (overrides_tracks extra k) as [Hc' | Hc']; [| tauto | tauto].
      right. exact Hc.
Qed.

Lemma withEnv_restores_environment_witness :
  (ConfigSpec.withEnv extra_sample fn_loads_config denv_sample).2 = denv_sample
  /\ (ConfigSpec.withEnv extra_sample fn_loads_config denv_sample).1
     = (fn_loads_config (ConfigSpec.prepare extra_sample denv_sample)).1.
Proof.
  apply (withEnv_restores_environment extra_sample fn_loads_config denv_sample).
  intros e k _ _. reflexivity.
Defined.

Lemma foldl_set_entry (l : list (string * string)) (e : gmap string string) k v :
  NoDup l.*1 -> (k, v) ∈ l ->
  foldl (fun denv entry => <[entry.1 := entry.2]> denv) e l !! k = Some v.
Proof.
  revert e. induction l as [| [k' v'] l IH]; intros e Hnd Hin.
  - apply elem_of_nil in Hin. contradiction.
  - cbn in *. apply NoDup_cons in Hnd as [Hfresh Hnd].
    apply elem_of_cons in Hin as [Heq | Hin].
    + injection Heq as <- <-. rewrite foldl_set_other by exact Hfresh.
      apply lookup_insert_eq.
    + apply IH; assumption.
Qed.

Lemma foldl_delete_member (l : list string) (e : gmap string string) k :
  k ∈ l -> foldl (fun denv key => delete key denv) e l !! k = None.
Proof.
  revert e. induction l as [| k' l IH]; intros e Hin.
  - apply elem_of_nil in Hin. contradiction.
  - cbn. destruct (decide (k ∈ l)) as [Hl | Hl]; [apply IH, Hl |].
    apply elem_of_cons in Hin as [-> | Hin]; [| contradiction].
    rewrite foldl_delete_other by exact Hl. apply lookup_delete_eq.
Qed.

(** The first loop, key by key, when no key of [extra] is repeated. *)
Lemma overrides_by_key extra k :
  NoDup extra.*1 ->
  let all := (ConfigSpec.overrides extra).1 in
  let toDelete := (ConfigSpec.overrides extra).2 in
  (k ∉ extra.*1 -> all !! k = ConfigSpec.REQUIRED_ENV !! k /\ k ∉ toDelete)
  /\ (forall v, (k, Some v) ∈ extra -> all !! k = Some v /\ k ∉ toDelete)
  /\ ((k, None) ∈ extra -> k ∈ toDelete).
Proof.
  unfold ConfigSpec.overrides.
  set (step := fun (acc : gmap string string * list string)
                   (entry : string * option string) =>
                 match entry.2 with
                 | None => (delete entry.1 acc.1, acc.2 ++ [entry.1])
                 | Some v => (<[entry.1 := v]> acc.1, acc.2)
                 end).
  intros Hnd. cbv zeta.
  assert (forall acc,
            (k ∉ extra.*1 ->
               (foldl step acc extra).1 !! k = acc.1 !! k
               /\ (k ∉ acc.2 -> k ∉ (foldl step acc extra).2))
            /\ (forall v, (k, Some v) ∈ extra ->
                  (foldl step acc extra).1 !! k = Some v
                  /\ (k ∉ acc.2 -> k ∉ (foldl step acc extra).2))
            /\ ((k, None) ∈ extra -> k ∈ (foldl step acc extra).2)) as H.
  { induction extra as [| [k' v'] extra IH]; intros acc.
    - split; [intros _; split; [reflexivity | tauto] |].
      split; [intros v Hin | intros Hin]; apply elem_of_nil in Hin; contradiction.
    - cbn [fmap list_fmap fst] in Hnd. apply NoDup_cons in Hnd as [Hfresh Hnd].
      specialize (IH Hnd (step acc (k', v'))). destruct IH as (IHother & IHset & IHdel).
      cbn [foldl]. split; [| split].
      + intros Hk. cbn [fmap list_fmap fst] in Hk. apply not_elem_of_cons in Hk as [Hne Hk].
        destruct (IHother Hk) as [Hall Hdel]. rewrite Hall. split.
        * unfold step. cbn. destruct v'; cbn;
            [apply lookup_insert_ne | apply lookup_delete_ne]; congruence.
        * intros Hacc. apply Hdel. unfold step. cbn. destruct v'; cbn; [exact Hacc |].
          intros Hc. apply elem_of_app in Hc as [Hc | Hc]; [contradiction |].
          apply list_elem_of_singleton in Hc. contradiction.
      + intros v Hin. apply elem_of_cons in Hin as [Heq | Hin].
        * injection Heq as <- <-. destruct (IHother Hfresh) as [Hall Hdel].
          rewrite Hall. unfold step at 1 2. cbn. split; [apply lookup_insert_eq |].
          intros Hacc. apply Hdel. unfold step. cbn. exact Hacc.
        * destruct (IHset v Hin) as [Hall Hdel]. split; [exact Hall |].
          intros Hacc. apply Hdel. unfold step. cbn.
          assert (k <> k') as Hne.
          { intros ->. apply Hfresh. apply list_elem_of_fmap.
            exists (k', Some v). split; [reflexivity | exact Hin]. }
          destruct v'; cbn; [exact Hacc |].
          intros Hc. apply elem_of_app in Hc as [Hc | Hc]; [contradiction |].
          apply list_elem_of_singleton in Hc. contradiction.
      + intros Hin. apply elem_of_cons in Hin as [Heq | Hin].
        * injection Heq as <- <-.
          assert (k ∈ (step acc (k, None)).2) as Hstep
            by (unfold step; cbn; apply elem_of_app; right;
                apply list_elem_of_singleton; reflexivity).
          clear - Hstep. revert Hstep. generalize (step acc (k, None)).
          induction extra as [| e extra IH']; intros acc' Hacc'; [exact Hacc' |].
          cbn [foldl]. apply IH'. unfold step. destruct e.2; cbn; [exact Hacc' |].
          apply elem_of_app. left. exact Hacc'.
        * apply IHdel, Hin. }
  specialize (H (ConfigSpec.REQUIRED_ENV, [])). cbn [fst snd] in H.
  destruct H as (Hother & Hset & Hdel). split; [| split].
  - intros Hk. destruct (Hother Hk) as [Hall Hd]. split; [exact Hall |].
    apply Hd, not_elem_of_nil.
  - intros v Hin. destruct (Hset v Hin) as [Hall Hd]. split; [exact Hall |].
    apply Hd, not_elem_of_nil.
  - exact Hdel.
Qed.

Lemma prepare_lookup extra (denv : gmap string string) k :
  ConfigSpec.prepare extra denv !! k =
    if decide (k ∈ (ConfigSpec.overrides extra).2) then None
    else match (ConfigSpec.overrides extra).1 !! k with
         | Some v => Some v
         | None => denv !! k
         end.
Proof.
  unfold ConfigSpec.prepare, ConfigSpec.Object_entries. cbv zeta.
  destruct (decide (k ∈ (ConfigSpec.overrides extra).2)) as [Hdel | Hdel].
  - apply foldl_delete_member, Hdel.
  - rewrite foldl_delete_other by exact Hdel.
    destruct ((ConfigSpec.overrides extra).1 !! k) as [v |] eqn:Hall.
    + apply foldl_set_entry; [apply NoDup_fst_map_to_list |].
      apply elem_of_map_to_list. exact Hall.
    + apply foldl_set_other. intros Hc.
      apply list_elem_of_fmap in Hc as ([k' v] & -> & Hc).
      apply elem_of_map_to_list in Hc. cbn in Hall. congruence.
Qed.

(** X25. What [fn] sees inside [withEnv], for an [extra] without repeated
    keys: a variable given a value has that value; a variable given
    [undefined] is unset, a required one included; a required variable that
    [extra] does not mention has the value of [REQUIRED_ENV]; every other
    variable is as it was outside. *)
Theorem withEnv_environment_seen extra (denv : gmap string string) k :
  NoDup extra.*1 ->
  (forall v, (k, Some v) ∈ extra -> ConfigSpec.prepare extra denv !! k = Some v)
  /\ ((k, None) ∈ extra -> ConfigSpec.prepare extra denv !! k = None)
  /\ (forall v, k ∉ extra.*1 -> ConfigSpec.REQUIRED_ENV !! k = Some v ->
        ConfigSpec.prepare extra denv !! k = Some v)
  /\ (k ∉ extra.*1 -> ConfigSpec.REQUIRED_ENV !! k = None ->
        ConfigSpec.prepare extra denv !! k = denv !! k).
Proof.
  intros Hnd. rewrite prepare_lookup.
  pose proof (overrides_by_key extra k Hnd) as (Hother & Hset & Hdel). cbv zeta in *.
  split; [| split; [| split]].
  - intros v Hin. destruct (Hset v Hin) as [Hall Hd].
    rewrite decide_False by exact Hd. rewrite Hall. reflexivity.
  - intros Hin. rewrite decide_True by exact (Hdel Hin). reflexivity.
  - intros v Hk Hreq. destruct (Hother Hk) as [Hall Hd].
    rewrite decide_False by exact Hd. rewrite Hall, Hreq. reflexivity.
  - intros Hk Hreq. destruct (Hother Hk) as [Hall Hd].
    rewrite decide_False by exact Hd. rewrite Hall, Hreq. reflexivity.
Qed.

Lemma withEnv_environment_seen_witness :
  ConfigSpec.prepare extra_sample denv_sample !! "REDIS_HOST" = None.
Proof.
  apply (withEnv_environment_seen extra_sample denv_sample "REDIS_HOST").
  - apply (bool_decide_unpack _). vm_compute. exact I.
  - unfold extra_sample. constructor.
Defined.
